(** * paperstorage: the command-line front end and the codec it drives

    This development embeds [paperstorage/__main__.py] (the folder restore,
    the interactive restore dialogue and the command-line validation of the
    block size) together with a model of the chunk codec and of the
    reconstruction session that the front end drives through the
    [PaperStorage] class. *)

From Stdlib Require Import ZArith Lia List String Ascii.
From Stdlib Require Import DecimalString DecimalNat DecimalPos DecimalZ.
From Stdlib.Strings Require Import Byte.
From stdpp Require Import gmap strings list fin_maps.

Local Open Scope Z_scope.

(** ** Bytes *)

Abbreviation bytes := (list byte).

Definition byte_to_Z (b : byte) : Z := Z.of_N (Byte.to_N b).

Definition byte_of_Z (z : Z) : byte :=
  match Byte.of_N (Z.to_N (z mod 256)) with
  | Some b => b
  | None => x00
  end.

(** ** SHA-256 (FIPS 180-4), as computed by [hashlib.sha256]

    32-bit words are integers reduced modulo [2^32]. *)

Module SHA256.

Definition w32 (x : Z) : Z := x mod 2 ^ 32.

Definition add32 (x y : Z) : Z := w32 (x + y).

Definition rotr (n x : Z) : Z :=
  Z.lor (Z.shiftr x n) (w32 (Z.shiftl x (32 - n))).

Definition not32 (x : Z) : Z := w32 (Z.lnot x).

Definition Ch (x y z : Z) : Z := Z.lxor (Z.land x y) (Z.land (not32 x) z).

Definition Maj (x y z : Z) : Z :=
  Z.lxor (Z.lxor (Z.land x y) (Z.land x z)) (Z.land y z).

Definition Sigma0 (x : Z) : Z := Z.lxor (Z.lxor (rotr 2 x) (rotr 13 x)) (rotr 22 x).
Definition Sigma1 (x : Z) : Z := Z.lxor (Z.lxor (rotr 6 x) (rotr 11 x)) (rotr 25 x).
Definition sigma0 (x : Z) : Z := Z.lxor (Z.lxor (rotr 7 x) (rotr 18 x)) (Z.shiftr x 3).
Definition sigma1 (x : Z) : Z := Z.lxor (Z.lxor (rotr 17 x) (rotr 19 x)) (Z.shiftr x 10).

(** The constants of the standard are given by their definition: the
    first 32 bits of the fractional parts of the cube roots (round
    constants) and of the square roots (initial hash value) of the first
    primes. *)
Definition is_prime (n : nat) : bool :=
  forallb (fun d => negb (n mod d =? 0)%nat) (seq 2 (n - 2)).

Definition primes (count : nat) : list Z :=
  map Z.of_nat (take count (List.filter is_prime (seq 2 310))).

(** The integer cube root, found bit by bit from bit [bits - 1] down. *)
Fixpoint cube_root_bits (bits : nat) (n root : Z) : Z :=
  match bits with
  | O => root
  | S bits' =>
      let candidate := root + 2 ^ Z.of_nat bits' in
      cube_root_bits bits' n (if candidate ^ 3 <=? n then candidate else root)
  end.

Definition cube_root (n : Z) : Z := cube_root_bits 40 n 0.

Definition K : list Z :=
  Eval vm_compute in map (fun p => w32 (cube_root (p * 2 ^ 96))) (primes 64).

Record state := State { sa : Z; sb : Z; sc : Z; sd : Z; se : Z; sf : Z; sg : Z; sh : Z }.

Definition initial_words : list Z :=
  Eval vm_compute in map (fun p => w32 (Z.sqrt (p * 2 ^ 64))) (primes 8).

Definition H0 : state :=
  match initial_words with
  | [a; b; c; d; e; f; g; h] => State a b c d e f g h
  | _ => State 0 0 0 0 0 0 0 0
  end.

(** Message padding: a [0x80] byte, zero bytes up to 56 modulo 64, and the
    bit length as a 64-bit big-endian integer. *)
Definition be_bytes (n : nat) (x : Z) : list Z :=
  map (fun i => (x / 2 ^ (8 * Z.of_nat i)) mod 256) (rev (seq 0 n)).

Definition pad (msg : list Z) : list Z :=
  let len := Z.of_nat (length msg) in
  msg ++ [0x80] ++ repeat 0 (Z.to_nat ((55 - len) mod 64)) ++ be_bytes 8 (8 * len).

Fixpoint groups {A} (fuel n : nat) (l : list A) : list (list A) :=
  match fuel with
  | O => []
  | S fuel' =>
      match l with
      | [] => []
      | _ => take n l :: groups fuel' n (drop n l)
      end
  end.

Definition be_word (bs : list Z) : Z :=
  fold_left (fun acc b => acc * 256 + b) bs 0.

(** The 64-entry message schedule of one 64-byte block. *)
Fixpoint extend (k : nat) (w : list Z) : list Z :=
  match k with
  | O => w
  | S k' =>
      let t := length w in
      let at_ i := nth (t - i) w 0 in
      extend k' (w ++ [w32 (sigma1 (at_ 2%nat) + at_ 7%nat + sigma0 (at_ 15%nat) + at_ 16%nat)])
  end.

Definition schedule (block : list Z) : list Z :=
  extend 48 (map be_word (groups 16 4 block)).

Definition round (s : state) (kw : Z * Z) : state :=
  let t1 := w32 (sh s + Sigma1 (se s) + Ch (se s) (sf s) (sg s) + fst kw + snd kw) in
  let t2 := w32 (Sigma0 (sa s) + Maj (sa s) (sb s) (sc s)) in
  State (add32 t1 t2) (sa s) (sb s) (sc s) (add32 (sd s) t1) (se s) (sf s) (sg s).

Definition compress (h : state) (block : list Z) : state :=
  let s := fold_left round (combine K (schedule block)) h in
  State (add32 (sa h) (sa s)) (add32 (sb h) (sb s)) (add32 (sc h) (sc s)) (add32 (sd h) (sd s))
        (add32 (se h) (se s)) (add32 (sf h) (sf s)) (add32 (sg h) (sg s)) (add32 (sh h) (sh s)).

Definition word_bytes (w : Z) : bytes :=
  [ byte_of_Z (w / 2 ^ 24); byte_of_Z (w / 2 ^ 16); byte_of_Z (w / 2 ^ 8); byte_of_Z w ].

Definition state_bytes (s : state) : bytes :=
  word_bytes (sa s) ++ word_bytes (sb s) ++ word_bytes (sc s) ++ word_bytes (sd s) ++
  word_bytes (se s) ++ word_bytes (sf s) ++ word_bytes (sg s) ++ word_bytes (sh s).

Definition digest (data : bytes) : bytes :=
  let padded := pad (map byte_to_Z data) in
  state_bytes (fold_left compress (groups (length padded) 64 padded) H0).

End SHA256.

(** [hashlib.sha256(data).digest()] *)
Definition sha256 (data : bytes) : bytes := SHA256.digest data.

(** ** Hexadecimal text, lower case, two digits per byte *)

Definition hex_digit (n : Z) : ascii :=
  if n <? 10 then ascii_of_N (Z.to_N (48 + n)) else ascii_of_N (Z.to_N (87 + n)).

Definition hex_value (c : ascii) : option Z :=
  let n := Z.of_N (N_of_ascii c) in
  if (48 <=? n) && (n <=? 57) then Some (n - 48)
  else if (97 <=? n) && (n <=? 102) then Some (n - 87)
  else None.

Fixpoint hex_encode (bs : bytes) : list ascii :=
  match bs with
  | [] => []
  | b :: rest => hex_digit (byte_to_Z b / 16) :: hex_digit (byte_to_Z b mod 16) :: hex_encode rest
  end.

Fixpoint hex_decode (cs : list ascii) : option bytes :=
  match cs with
  | [] => Some []
  | hi :: lo :: rest =>
      match hex_value hi, hex_value lo, hex_decode rest with
      | Some h, Some l, Some bs => Some (byte_of_Z (16 * h + l) :: bs)
      | _, _, _ => None
      end
  | _ => None
  end.

(** [hashlib.sha256(data).hexdigest()] *)
Definition hexdigest (digest : bytes) : string := string_of_list_ascii (hex_encode digest).

Definition bytes_of_string (s : string) : bytes := list_byte_of_string s.

(** ** Text helpers shared by the front end and the codec *)

Definition nl : string := String (ascii_of_nat 10) EmptyString.

(** [sep.join(fields)] and [text.split(sep)] for a one-character separator,
    on character lists. *)
Fixpoint join (sep : ascii) (fields : list (list ascii)) : list ascii :=
  match fields with
  | [] => []
  | [f] => f
  | f :: fs => f ++ sep :: join sep fs
  end.

Fixpoint split_on (sep : ascii) (cs : list ascii) : list (list ascii) :=
  match cs with
  | [] => [[]]
  | c :: rest =>
      if Ascii.eqb c sep then [] :: split_on sep rest
      else match split_on sep rest with
           | f :: fs => (c :: f) :: fs
           | [] => [[c]]
           end
  end.

(** [str(n)] for a Python integer. *)
Definition py_str (n : Z) : string := NilZero.string_of_int (Z.to_int n).


(** [int(text)] in base 10: surrounding white space is stripped, one sign
    is allowed, single underscores may separate digits, and a numeral of
    more than 4300 digits is refused.  [None] stands for [ValueError].
    The characters of a text are code points below 256.  The white space
    that [int] strips is the tab, line feed, vertical tab, form feed,
    carriage return and space (9-13 and 32) and, outside ASCII, the
    characters 133 and 160; the separators 28-31 are not stripped. *)
Definition is_space (c : ascii) : bool :=
  let n := N_of_ascii c in
  ((9 <=? n) && (n <=? 13) || (n =? 32) || (n =? 133) || (n =? 160))%N.

Definition digit_value (c : ascii) : option Z :=
  let n := Z.of_N (N_of_ascii c) in
  if (48 <=? n) && (n <=? 57) then Some (n - 48) else None.

(** The characters of a numeral: digits and the minus sign. *)
Definition numeral_char (c : ascii) : bool :=
  match digit_value c with
  | Some _ => true
  | None => Ascii.eqb c "-"
  end.

Fixpoint lstrip (cs : list ascii) : list ascii :=
  match cs with
  | c :: rest => if is_space c then lstrip rest else cs
  | [] => []
  end.

Definition strip (cs : list ascii) : list ascii := rev (lstrip (rev (lstrip cs))).

(** [digits_from acc after_digit cs]: [after_digit] tells whether the
    previous character was a digit, the only place an underscore or the end
    of the numeral may follow. *)
Fixpoint digits_from (acc : Z) (after_digit : bool) (cs : list ascii) : option Z :=
  match cs with
  | [] => if after_digit then Some acc else None
  | c :: rest =>
      match digit_value c with
      | Some v => digits_from (10 * acc + v) true rest
      | None =>
          if Ascii.eqb c "_" && after_digit then digits_from acc false rest else None
      end
  end.

(** The default of [sys.get_int_max_str_digits()]. *)
Definition max_str_digits : nat := 4300.

Definition count_digits (cs : list ascii) : nat :=
  length (List.filter (fun c => bool_decide (is_Some (digit_value c))) cs).

(** An unsigned numeral: its digits are counted, without the underscores,
    before it is read. *)
Definition numeral (ds : list ascii) : option Z :=
  if (count_digits ds <=? max_str_digits)%nat then digits_from 0 false ds else None.

Definition py_int (s : string) : option Z :=
  match strip (list_ascii_of_string s) with
  | "+"%char :: ds => numeral ds
  | "-"%char :: ds => option_map Z.opp (numeral ds)
  | ds => numeral ds
  end.

(** [text.startswith('y')] *)
Definition startswith_y (s : string) : bool :=
  match s with
  | String c _ => Ascii.eqb c "y"
  | EmptyString => false
  end.

(** [data.decode('ascii')]: [None] stands for [UnicodeDecodeError]. *)
Definition ascii_only (data : bytes) : bool := forallb (fun b => byte_to_Z b <? 128) data.

Definition decode_ascii (data : bytes) : option string :=
  if ascii_only data then Some (string_of_list_byte data) else None.

(** ** The chunk codec and the reconstruction session

    The [PaperStorage] class is imported by [__main__.py] and its source is
    not part of the embedded file.  The definitions of this part are
    modelled from the specification. *)

Inductive result (E A : Type) : Type :=
  | Ok (a : A)
  | Err (e : E).
Arguments Ok {E A} a.
Arguments Err {E A} e.

(** Modelled from the spec: the ASCII-safe binary-to-text scheme of
    section 4.1 (the encoder of [PaperStorage] is not in the embedded
    file), taken to be base64 with padding. *)
Module Base64.

(** The 64-character alphabet [A-Z a-z 0-9 + /] by position. *)
Definition char_of (n : Z) : ascii :=
  if n <? 26 then ascii_of_N (Z.to_N (65 + n))
  else if n <? 52 then ascii_of_N (Z.to_N (71 + n))
  else if n <? 62 then ascii_of_N (Z.to_N (n - 4))
  else if n =? 62 then "+"%char
  else "/"%char.

Definition value_of (c : ascii) : option Z :=
  let n := Z.of_N (N_of_ascii c) in
  if (65 <=? n) && (n <=? 90) then Some (n - 65)
  else if (97 <=? n) && (n <=? 122) then Some (n - 71)
  else if (48 <=? n) && (n <=? 57) then Some (n + 4)
  else if n =? 43 then Some 62
  else if n =? 47 then Some 63
  else None.

Definition pad_char : ascii := "="%char.

Fixpoint encode (bs : bytes) : list ascii :=
  match bs with
  | [] => []
  | [b0] =>
      let n := byte_to_Z b0 * 65536 in
      [char_of (n / 262144); char_of ((n / 4096) mod 64); pad_char; pad_char]
  | [b0; b1] =>
      let n := byte_to_Z b0 * 65536 + byte_to_Z b1 * 256 in
      [char_of (n / 262144); char_of ((n / 4096) mod 64); char_of ((n / 64) mod 64); pad_char]
  | b0 :: b1 :: b2 :: rest =>
      let n := byte_to_Z b0 * 65536 + byte_to_Z b1 * 256 + byte_to_Z b2 in
      char_of (n / 262144) :: char_of ((n / 4096) mod 64) ::
      char_of ((n / 64) mod 64) :: char_of (n mod 64) :: encode rest
  end.

Fixpoint decode (cs : list ascii) : option bytes :=
  match cs with
  | [] => Some []
  | c0 :: c1 :: c2 :: c3 :: rest =>
      match value_of c0, value_of c1 with
      | Some s0, Some s1 =>
          if Ascii.eqb c3 pad_char then
            match rest with
            | [] =>
                if Ascii.eqb c2 pad_char then
                  Some [byte_of_Z ((s0 * 262144 + s1 * 4096) / 65536)]
                else
                  match value_of c2 with
                  | Some s2 =>
                      let n := s0 * 262144 + s1 * 4096 + s2 * 64 in
                      Some [byte_of_Z (n / 65536); byte_of_Z (n / 256)]
                  | None => None
                  end
            | _ :: _ => None
            end
          else
            match value_of c2, value_of c3, decode rest with
            | Some s2, Some s3, Some bs =>
                let n := s0 * 262144 + s1 * 4096 + s2 * 64 + s3 in
                Some (byte_of_Z (n / 65536) :: byte_of_Z (n / 256) :: byte_of_Z n :: bs)
            | _, _, _ => None
            end
      | _, _ => None
      end
  | _ => None
  end.

End Base64.

Module Codec.

(** Modelled from the spec: the valid chunk sizes of section 3, 50 to 1500
    inclusive in steps of 50 (the check of [PaperStorage]'s constructor is
    not in the embedded file). *)
Definition valid_chunk_size (size : nat) : bool :=
  ((50 <=? size) && (size <=? 1500) && (size mod 50 =? 0))%nat.

(** Modelled from the spec: the identifying fields (identifier, content
    hash, chunk count) that every chunk record repeats and that [matches]
    compares. *)
Record ManifestKey := {
  identifier : string;
  contentHash : bytes;
  chunkCount : nat
}.

(** Modelled from the spec: [BackupManifest] of section 3. *)
Record BackupManifest := {
  key : ManifestKey;
  totalLength : nat;
  chunkSize : nat
}.

(** Modelled from the spec: [Chunk] of section 3; the copy of the
    identifying fields is attached when the chunk is serialized. *)
Record Chunk := {
  index : nat;
  payload : bytes
}.

Inductive InvalidConfig := InvalidChunkSize.

(** Modelled from the spec: [chunkCount = ceil(totalLength / chunkSize)],
    minimum 1. *)
Definition chunk_count (len size : nat) : nat :=
  Nat.max 1 ((len + size - 1) / size).

(** Modelled from the spec: [BackupManifest.fromData]; an absent identifier
    is the empty string. *)
Definition fromData (data : bytes) (ident : option string) (size : nat)
  : result InvalidConfig BackupManifest :=
  if valid_chunk_size size then
    Ok {| key := {| identifier := default EmptyString ident;
                    contentHash := sha256 data;
                    chunkCount := chunk_count (length data) size |};
          totalLength := length data;
          chunkSize := size |}
  else Err InvalidChunkSize.

(** Modelled from the spec: [ChunkCodec.split]. *)
Definition split (data : bytes) (size : nat) : result InvalidConfig (list Chunk) :=
  if valid_chunk_size size then
    Ok (map (fun i => {| index := i; payload := take size (drop (i * size) data) |})
            (seq 0 (chunk_count (length data) size)))
  else Err InvalidChunkSize.

End Codec.

#[global] Instance byte_eq_dec : EqDecision byte := Byte.byte_eq_dec.

Module Wire.
Import Codec.

(** Modelled from the spec: the per-chunk text record of section 6 (the
    serializer of [PaperStorage] is not in the embedded file).  Six fields
    separated by a bar: version tag, identifier, content hash in
    hexadecimal, chunk count, chunk index, payload.  The identifier is
    free-form text, so it travels in the same base64 encoding as the
    payload; no field can then contain the separator. *)
Definition version_tag : list ascii := list_ascii_of_string "PS1".

Definition delimiter : ascii := "|"%char.

Definition dec_of_nat (n : nat) : list ascii :=
  list_ascii_of_string (NilZero.string_of_uint (Nat.to_uint n)).

Definition nat_of_dec (cs : list ascii) : option nat :=
  option_map Nat.of_uint (NilZero.uint_of_string (string_of_list_ascii cs)).

(** Modelled from the spec: [ChunkCodec.serialize]. *)
Definition serialize (c : Chunk) (m : BackupManifest) : string :=
  string_of_list_ascii
    (join delimiter
       [ version_tag;
         Base64.encode (bytes_of_string (identifier (key m)));
         hex_encode (contentHash (key m));
         dec_of_nat (chunkCount (key m));
         dec_of_nat (index c);
         Base64.encode (payload c) ]).

Inductive ParseError := BadRecord.

(** Modelled from the spec: [ChunkCodec.deserialize], a total parser; a
    record whose index is not below its chunk count is not a chunk. *)
Definition deserialize (text : string) : result ParseError (ManifestKey * Chunk) :=
  match split_on delimiter (list_ascii_of_string text) with
  | [tag; ident; hash; count; idx; body] =>
      if bool_decide (tag = version_tag) then
        match Base64.decode ident, hex_decode hash, nat_of_dec count,
              nat_of_dec idx, Base64.decode body with
        | Some i, Some h, Some n, Some k, Some p =>
            if (k <? n)%nat then
              Ok ({| identifier := string_of_list_byte i; contentHash := h; chunkCount := n |},
                  {| index := k; payload := p |})
            else Err BadRecord
        | _, _, _, _, _ => Err BadRecord
        end
      else Err BadRecord
  | _ => Err BadRecord
  end.

End Wire.

Module Session.
Import Codec Wire.

#[global] Instance ManifestKey_eq_dec : EqDecision ManifestKey.
Proof. solve_decision. Defined.

(** Modelled from the spec: [BackupManifest.matches], equality on
    (identifier, content hash, chunk count). *)
Definition matches (a b : ManifestKey) : bool := bool_decide (a = b).

(** Modelled from the spec: [ReconstructionSession] of section 3. *)
Record ReconstructionSession := {
  manifest : option ManifestKey;
  received : gmap nat bytes
}.

(** Modelled from the spec: [newSession], a session created empty. *)
Definition newSession : ReconstructionSession :=
  {| manifest := None; received := ∅ |}.

Inductive RejectReason := MismatchedBackup.

Inductive IngestOutcome := Accepted | Duplicate | Rejected (why : RejectReason) | Malformed.

(** Modelled from the spec: [ReconstructionSession.ingest], steps 1 to 5 of
    section 4.3. *)
Definition ingest (text : string) (s : ReconstructionSession)
  : ReconstructionSession * IngestOutcome :=
  match deserialize text with
  | Err _ => (s, Malformed)
  | Ok (k, c) =>
      let fixed := default k (manifest s) in
      if matches fixed k then
        if bool_decide (received s !! index c = Some (payload c)) then
          ({| manifest := Some fixed; received := received s |}, Duplicate)
        else
          ({| manifest := Some fixed; received := <[index c := payload c]> (received s) |},
           Accepted)
      else (s, Rejected MismatchedBackup)
  end.

(** Modelled from the spec: [ingest_all] of section 8, one [ingest] per
    text, in order. *)
Definition ingest_all (texts : list string) (s : ReconstructionSession)
  : ReconstructionSession :=
  fold_left (fun acc text => fst (ingest text acc)) texts s.

(** Modelled from the spec: [isComplete]. *)
Definition isComplete (s : ReconstructionSession) : bool :=
  match manifest s with
  | None => false
  | Some k => forallb (fun i => bool_decide (is_Some (received s !! i))) (seq 0 (chunkCount k))
  end.

(** Modelled from the spec: the result of [missingIndices], with the
    explicit state for an unknown manifest. *)
Inductive MissingState := Unknown | Missing (indices : list nat).

Definition missingIndices (s : ReconstructionSession) : MissingState :=
  match manifest s with
  | None => Unknown
  | Some k =>
      Missing (filter (fun i => received s !! i = None) (seq 0 (chunkCount k)))
  end.

Inductive IncompleteError := Incomplete.

(** Modelled from the spec: [assemble]. *)
Definition assemble (s : ReconstructionSession) : result IncompleteError bytes :=
  match manifest s with
  | Some k =>
      if isComplete s then
        Ok (concat (map (fun i => default [] (received s !! i)) (seq 0 (chunkCount k))))
      else Err Incomplete
  | None => Err Incomplete
  end.

(** Modelled from the spec: [verify]. *)
Definition verify (s : ReconstructionSession) (data : bytes) : bool :=
  match manifest s with
  | Some k => bool_decide (sha256 data = contentHash k)
  | None => false
  end.

End Session.

(** ** The environment of the front end *)

(** Exceptions that leave a function of [__main__.py]; [SystemExit] is what
    [quit()] and an argparse error raise. *)
Inductive exn :=
  | EOFError
  | KeyboardInterrupt
  | NotImplementedError (msg : string)
  | UnboundLocalError (name : string)
  | UnicodeDecodeError
  | FileNotFoundError
  | OtherError (name : string)
  | SystemExit (code : Z).

(** What [PIL.Image.open] does with a regular file, and what
    [pyzbar.decode] finds on the opened image. *)
Inductive opened :=
  | Unidentified                     (* raises PIL.UnidentifiedImageError *)
  | OpenRaises (e : exn)             (* raises anything else *)
  | Image (codes : list bytes).      (* the [data] of every decoded symbol *)

Inductive entry_kind :=
  | NotAFile                         (* [os.path.isfile] is false *)
  | File (o : opened).

Record dirent := { d_name : string; d_kind : entry_kind }.

Record disk := {
  dirs : gmap string (list dirent);  (* [os.listdir] of every directory *)
  files : gmap string bytes;         (* contents written by this program *)
  can_create : string -> bool        (* [open(path, 'wb+')] succeeds *)
}.

Definition isdir (d : disk) (path : string) : bool := bool_decide (is_Some (dirs d !! path)).

(** What the user does while the program waits in [input()]: type a line,
    close the input, interrupt, or change the disk (save new scans). *)
Inductive event :=
  | Line (s : string)
  | Eof
  | Interrupt
  | Change (d : disk).

Inductive output :=
  | Print (s : string)
  | Prompt (s : string).

Record world := World {
  w_in : list event;
  w_disk : disk;
  w_out : list output
}.

(** [input(prompt)] *)
Fixpoint read_input (inp : list event) (d : disk) : result exn string * (list event * disk) :=
  match inp with
  | [] => (Err EOFError, ([], d))
  | Line s :: rest => (Ok s, (rest, d))
  | Eof :: rest => (Err EOFError, (rest, d))
  | Interrupt :: rest => (Err KeyboardInterrupt, (rest, d))
  | Change d' :: rest => read_input rest d'
  end.

Definition input (prompt : string) (w : world) : result exn string * world :=
  let '(r, (rest, d)) := read_input (w_in w) (w_disk w) in
  (r, World rest d (w_out w ++ [Prompt prompt])).

Definition print (s : string) (w : world) : world :=
  World (w_in w) (w_disk w) (w_out w ++ [Print s]).

(** Programs of the front end: a state monad on the world with
    exceptions. *)
Definition io (A : Type) : Type := world -> result exn A * world.

Definition io_ret {A} (a : A) : io A := fun w => (Ok a, w).

Definition io_raise {A} (ex : exn) : io A := fun w => (Err ex, w).

Definition io_bind {A B} (c : io A) (k : A -> io B) : io B :=
  fun w =>
    match c w with
    | (Ok a, w1) => k a w1
    | (Err ex, w1) => (Err ex, w1)
    end.

Definition io_print (s : string) : io unit := fun w => (Ok tt, print s w).

Notation "'let*' x ':=' c 'in' k" := (io_bind c (fun x => k))
  (at level 10, x pattern, c at level 100, k at level 200).

(** [range(start, stop, step)] for a positive step. *)
Definition py_range (start stop step : Z) : list Z :=
  map (fun k => start + Z.of_nat k * step)
      (seq 0 (Z.to_nat ((stop - start + step - 1) / step))).

(** The texts of the symbols found in one directory entry, and in a
    listing: every symbol of every image, in order. *)
Definition decoded_texts (e : dirent) : list string :=
  match d_kind e with
  | File (Image codes) => map string_of_list_byte codes
  | _ => []
  end.

Definition folder_texts (entries : list dirent) : list string :=
  concat (map decoded_texts entries).

(** Entries on which nothing but [PIL.UnidentifiedImageError] is raised:
    non-files, files that are not images, and images whose symbols hold
    ASCII data. *)
Definition benign (e : dirent) : bool :=
  match d_kind e with
  | NotAFile => true
  | File Unidentified => true
  | File (OpenRaises _) => false
  | File (Image codes) => forallb ascii_only codes
  end.


(** ** The [PaperStorage] object as [__main__.py] uses it

    [getMissingDataBlocks] is compared with [[]] and iterated as a list of
    integers by the caller, so it is a list here. *)
Class PaperStorageAPI (PS : Type) := {
  PaperStorage_new : PS;                          (* [PaperStorage()] *)
  restoreFromQRString : string -> PS -> PS;
  isDataReady : PS -> bool;
  getMissingDataBlocks : PS -> list Z;
  getData : PS -> bytes;
  _sha256 : PS -> string;
  _identifier : PS -> string
}.

Section FrontEnd.
Context {PS : Type} `{PaperStorageAPI PS}.

(** *** [__restoreFromFolder] *)

(** Lines 38-39: one [restoreFromQRString] per decoded symbol. *)
Fixpoint ingest_codes (codes : list bytes) (ps : PS) : result exn PS :=
  match codes with
  | [] => Ok ps
  | data :: rest =>
      match decode_ascii data with
      | Some text => ingest_codes rest (restoreFromQRString text ps)
      | None => Err UnicodeDecodeError
      end
  end.

(** Lines 32-39: the loop over the directory listing. *)
Fixpoint restore_entries (entries : list dirent) (ps : PS) : result exn PS :=
  match entries with
  | [] => Ok ps
  | e :: rest =>
      match d_kind e with
      | NotAFile => restore_entries rest ps
      | File Unidentified => restore_entries rest ps
      | File (OpenRaises ex) => Err ex
      | File (Image codes) =>
          match ingest_codes codes ps with
          | Ok ps' => restore_entries rest ps'
          | Err ex => Err ex
          end
      end
  end.

Definition __restoreFromFolder (folder : string) (ps : option PS) (d : disk) : result exn PS :=
  let ps := default PaperStorage_new ps in
  match dirs d !! folder with
  | Some entries => restore_entries entries ps
  | None => Err FileNotFoundError
  end.

(** The calls that [__restoreFromFolder] makes: [feed texts ps] is [ps]
    after one [restoreFromQRString] per text, in order. *)
Definition feed (texts : list string) (ps : PS) : PS :=
  fold_left (fun acc text => restoreFromQRString text acc) texts ps.

(** *** [__interactiveFolder] *)

Definition folder_prompt : string :=
  nl +:+ "Please enter the path of the folder you just saved the scans to: ".

Definition not_a_folder : string :=
  "The path specified is not a folder or does not exist. Please try again.".

Definition no_codes_message (folder : string) : string :=
  nl +:+ "No valid QR-Codes found. Try making sure the folder name ('" +:+ folder +:+
  "') is correct." +:+ nl +:+
  "Otherwise try rescanning the pages with a higher quality setting and try again.".

(** [",".join([str(n+2) for n in missing])] *)
Definition page_numbers (missing : list Z) : list Z := map (fun n => n + 2) missing.

Definition pages_text (missing : list Z) : string :=
  string_of_list_ascii
    (join ","%char (map (fun p => list_ascii_of_string (py_str p)) (page_numbers missing))).

Definition rescan_message (missing : list Z) : string :=
  nl +:+ "The backup could not be restored completly. Page(s) " +:+ pages_text missing +:+
  " must be rescanned.".

Definition rescan_prompt : string :=
  "Please rescan the listed pages and save them to the same folder as before. Press [Enter] when you are done. ".

Definition mismatch_message (ident : string) : string :=
  nl +:+ "Your backup of '" +:+ ident +:+
  "' was restored, but something went wrong. (hash mismatch)" +:+ nl +:+
  "This should never happen. Please try to rescan all files into a fresh folder." +:+ nl +:+
  "Your file will still be saved, but is probably corrupt.".

Definition success_message (ident : string) : string :=
  nl +:+ "That worked, your backup of '" +:+ ident +:+ "' was restored completly!".

Definition save_prompt : string := "Please choose a filename to save the restored file to: ".

Definition could_not_save : string :=
  "Could not save the data to the specified filename. Please try something else.".

(** Lines 43-47, waiting in [input]: the prompt has been written. *)
Fixpoint ask_folder (inp : list event) (d : disk) (out : list output)
  : result exn string * world :=
  match inp with
  | [] => (Err EOFError, World [] d out)
  | Change d' :: rest => ask_folder rest d' out
  | Eof :: rest => (Err EOFError, World rest d out)
  | Interrupt :: rest => (Err KeyboardInterrupt, World rest d out)
  | Line s :: rest =>
      if isdir d s then (Ok s, World rest d out)
      else ask_folder rest d (out ++ [Print not_a_folder; Prompt folder_prompt])
  end.

(** Lines 49-53: the head of the [while (not _ps.isDataReady())] loop. *)
Inductive loop_head :=
  | Ready
  | NoCodes
  | Rescan (missing : list Z).

Definition rescan_head (ps : PS) : loop_head :=
  if isDataReady ps then Ready
  else if bool_decide (getMissingDataBlocks ps = []) then NoCodes
  else Rescan (getMissingDataBlocks ps).

(** Lines 49-55, waiting in the [input] of line 54 with session [ps]. *)
Fixpoint rescan_wait (folder : string) (ps : PS) (inp : list event) (d : disk)
    (out : list output) : result exn PS * world :=
  match inp with
  | [] => (Err EOFError, World [] d out)
  | Change d' :: rest => rescan_wait folder ps rest d' out
  | Eof :: rest => (Err EOFError, World rest d out)
  | Interrupt :: rest => (Err KeyboardInterrupt, World rest d out)
  | Line _ :: rest =>
      match __restoreFromFolder folder (Some ps) d with
      | Err ex => (Err ex, World rest d out)
      | Ok ps' =>
          match rescan_head ps' with
          | Ready => (Ok ps', World rest d out)
          | NoCodes =>
              (Err (SystemExit 0), World rest d (out ++ [Print (no_codes_message folder)]))
          | Rescan missing =>
              rescan_wait folder ps' rest d
                (out ++ [Print (rescan_message missing); Prompt rescan_prompt])
          end
      end
  end.

Definition rescan_loop (folder : string) (ps : PS) : io PS := fun w =>
  match rescan_head ps with
  | Ready => (Ok ps, w)
  | NoCodes => (Err (SystemExit 0), print (no_codes_message folder) w)
  | Rescan missing =>
      rescan_wait folder ps (w_in w) (w_disk w)
        (w_out w ++ [Print (rescan_message missing); Prompt rescan_prompt])
  end.

(** Line 56 *)
Definition hash_matches (ps : PS) : bool :=
  String.eqb (_sha256 ps) (hexdigest (sha256 (getData ps))).

(** Lines 56-59 *)
Definition report (ps : PS) (w : world) : world :=
  if hash_matches ps then print (success_message (_identifier ps)) w
  else print (mismatch_message (_identifier ps)) w.

(** [open(path, 'wb+')]: the file is created or truncated. *)
Definition open_wb (path : string) (d : disk) : option disk :=
  if can_create d path
  then Some {| dirs := dirs d; files := <[path := []]> (files d); can_create := can_create d |}
  else None.

(** [_file.write(data)] on a file opened by [open_wb]. *)
Definition write_file (path : string) (data : bytes) (d : disk) : disk :=
  {| dirs := dirs d;
     files := <[path := default [] (files d !! path) ++ data]> (files d);
     can_create := can_create d |}.

(** Lines 60-66: one pass through the body, then the [break] of line 66.
    The result is the binding of [_file], if any. *)
Definition choose_file : io (option string) :=
  let* filename := input save_prompt in
  fun w =>
    match open_wb filename (w_disk w) with
    | Some d' => (Ok (Some filename), World (w_in w) d' (w_out w))
    | None => (Ok None, print could_not_save w)
    end.

(** Lines 67-68 *)
Definition write_and_close (file : option string) (data : bytes) : io unit :=
  match file with
  | None => io_raise (UnboundLocalError "_file")
  | Some path => fun w => (Ok tt, World (w_in w) (write_file path data (w_disk w)) (w_out w))
  end.

(** Lines 60-68 *)
Definition save (ps : PS) : io unit :=
  let* file := choose_file in
  write_and_close file (getData ps).

(** Lines 43-55: the session once every block is there. *)
Definition restore_session (ps : option PS) : io PS :=
  let* folder := (fun w => ask_folder (w_in w) (w_disk w) (w_out w ++ [Prompt folder_prompt])) in
  let* ps1 := (fun w => (__restoreFromFolder folder ps (w_disk w), w)) in
  rescan_loop folder ps1.

Definition __interactiveFolder (ps : option PS) : io unit :=
  let* ps2 := restore_session ps in
  let* _ := (fun w => (Ok tt, report ps2 w)) in
  save ps2.

(** *** The interactive restore of [main] (lines 89-131) *)

Definition menu : string :=
  "Please select one of the following options:" +:+ nl +:+ nl +:+
  "1) I've already scanned all pages of a backup to images and want to restore the file" +:+ nl +:+
  "2) I want to try reading a backup using my webcam (experimental)" +:+ nl +:+
  "3) I'm here because my backup said so, please guide me step-by-step" +:+ nl +:+
  "0) Quit" +:+ nl.

Definition choice_prompt : string := "Please enter the number of your choice (0-3): ".

Definition choice_error : string := "Please enter a number from 0 to 3".

Definition press_enter : string := "Press [Enter] when you are done. ".

Definition scanner_question : string :=
  nl +:+ "Do you have a (working) scanner nearby? (yes / no) ".

Definition scanner_instructions : string :=
  nl +:+ "Please make sure you have all pages of the backup ready." +:+ nl +:+
  "Create a single scan of every page and save all scans in a single folder on this computer." +:+ nl.

Definition smartphone_question : string := "Do you have a smartphone nearby? (yes / no) ".

Definition smartphone_instructions : string :=
  nl +:+ "Please make sure you have all pages of the backup ready." +:+ nl +:+
  "Create a single photo of the QR-Code of every page. Try to maximize the size of the QR-Code without cutting anything off." +:+ nl +:+
  "Transfer all images to a single folder on this computer." +:+ nl.

Definition webcam_question : string :=
  "Does your computer have a webcam and are you willing to use it to scan the pages? (yes / no) ".

Definition other_instructions : string :=
  nl +:+ "You have to use some other measure to make pictures of every page of the backup." +:+ nl +:+
  "Please do so and save the resulting images into a single folder on this computer." +:+ nl.

(** Lines 99-107, waiting in [input] with the current value of [_choice]:
    [ValueError] asks again, [KeyboardInterrupt] and [EOFError] leave the
    loop. *)
Fixpoint ask_choice (choice : option Z) (inp : list event) (d : disk) (out : list output)
  : result exn (option Z) * world :=
  match inp with
  | [] => (Ok choice, World [] d out)
  | Change d' :: rest => ask_choice choice rest d' out
  | Eof :: rest => (Ok choice, World rest d out)
  | Interrupt :: rest => (Ok choice, World rest d out)
  | Line s :: rest =>
      match py_int s with
      | None => ask_choice choice rest d (out ++ [Print choice_error; Prompt choice_prompt])
      | Some n =>
          if Z.abs n <=? 3 then (Ok (Some (Z.abs n)), World rest d out)
          else ask_choice (Some (Z.abs n)) rest d (out ++ [Prompt choice_prompt])
      end
  end.

(** The events on which the loop of lines 99-107 asks again: a line that
    [int] refuses, a number above 3, or a change of the disk. *)
Definition asks_again (ev : event) : bool :=
  match ev with
  | Line s =>
      match py_int s with
      | None => true
      | Some n => negb (Z.abs n <=? 3)
      end
  | Change _ => true
  | Eof | Interrupt => false
  end.

(** Lines 116-131 *)
Definition guided : io unit :=
  let* scanner := input scanner_question in
  if startswith_y scanner then
    let* _ := io_print scanner_instructions in
    let* _ := input press_enter in
    __interactiveFolder None
  else
    let* smartphone := input smartphone_question in
    if startswith_y smartphone then
      let* _ := io_print smartphone_instructions in
      let* _ := input press_enter in
      __interactiveFolder None
    else
      let* webcam := input webcam_question in
      if startswith_y webcam then io_raise (NotImplementedError "TODO")
      else
        let* _ := io_print other_instructions in
        let* _ := input press_enter in
        __interactiveFolder None.

(** Lines 109-131 *)
Definition dispatch (choice : option Z) : io unit :=
  match choice with
  | Some 1 => __interactiveFolder None
  | Some 2 => io_raise (NotImplementedError "TODO")
  | Some 3 => guided
  | _ => io_ret tt
  end.

(** Lines 89-131: the branch of [main] taken with [--interactive-restore]. *)
Definition interactive_restore : io unit :=
  let* _ := io_print menu in
  let* choice := (fun w => ask_choice None (w_in w) (w_disk w) (w_out w ++ [Prompt choice_prompt])) in
  dispatch choice.

End FrontEnd.

(** *** The block size option of [main] (line 84)

    [-b] has [type=int], [choices=range(50, 1501, 50)] and [default=1500];
    argparse reports a value that [int] refuses or that is not among the
    choices and exits with status 2. *)
Definition blocksize_choices : list Z := py_range 50 1501 50.

Definition blocksize_default : Z := 1500.

Definition parse_blocksize (arg : option string) : result exn Z :=
  match arg with
  | None => Ok blocksize_default
  | Some text =>
      match py_int text with
      | Some n => if existsb (Z.eqb n) blocksize_choices then Ok n else Err (SystemExit 2)
      | None => Err (SystemExit 2)
      end
  end.

(** A [PaperStorage] stand-in that only records the texts it is given,
    used to read off the calls made by the front end. *)
Module Recorder.

Definition log := list string.

#[local] Instance Recorder_API : PaperStorageAPI log := {|
  PaperStorage_new := [];
  restoreFromQRString text calls := calls ++ [text];
  isDataReady calls := false;
  getMissingDataBlocks calls := [];
  getData calls := [];
  _sha256 calls := EmptyString;
  _identifier calls := EmptyString
|}.

Definition calls_of (folder : string) (d : disk) : result exn log :=
  __restoreFromFolder folder None d.

End Recorder.

(** ** The page layout and the session behind the [PaperStorage] object *)

Module Layout.
Import Codec Wire.

(** The two page formats of [--format]. *)
Inductive PageFormat := A4 | Letter.

(** Modelled from the spec: [PageSpec] of section 6. *)
Record PageSpec := {
  captionText : string;
  payloadText : option string
}.

Definition text_of_nat (n : nat) : string := py_str (Z.of_nat n).

(** Modelled from the spec: [PageLayoutPlanner.plan], a cover page followed
    by one page per chunk (the renderer of [savePDF] is not in the embedded
    file). *)
Definition cover (m : BackupManifest) : PageSpec :=
  {| captionText :=
       identifier (key m) +:+ " " +:+ hexdigest (contentHash (key m)) +:+ " " +:+
       text_of_nat (chunkCount (key m)) +:+ " " +:+ text_of_nat (chunkSize m);
     payloadText := None |}.

Definition chunk_page (m : BackupManifest) (c : Chunk) : PageSpec :=
  {| captionText :=
       "chunk " +:+ text_of_nat (index c + 1) +:+ " of " +:+ text_of_nat (chunkCount (key m)) +:+
       " " +:+ identifier (key m);
     payloadText := Some (serialize c m) |}.

Definition plan (m : BackupManifest) (chunks : list Chunk) (format : PageFormat)
  : list PageSpec :=
  cover m :: map (chunk_page m) chunks.

(** Modelled from the spec: the page at a position counted from 1
    (section 4.4). *)
Definition page_at (pages : list PageSpec) (position : Z) : option PageSpec :=
  if 1 <=? position then pages !! Z.to_nat (position - 1) else None.

End Layout.

Module Binding.
Import Codec Wire Session.

(** Modelled from the spec: the collapsed form of [missingIndices] that the
    reference command-line flow consumes (section 9), where an unknown
    manifest reads as an empty list and the caller tests completeness
    first. *)
Definition collapsedMissing (s : ReconstructionSession) : list Z :=
  match missingIndices s with
  | Unknown => []
  | Missing indices => map Z.of_nat indices
  end.

(** Modelled from the spec: the data behind [getData], the assembled
    buffer of a complete session. *)
Definition assembled (s : ReconstructionSession) : bytes :=
  match assemble s with
  | Ok data => data
  | Err _ => []
  end.

(** Modelled from the spec: the session seen through the methods and
    attributes of [PaperStorage] that [__main__.py] uses. *)
#[global] Instance Session_API : PaperStorageAPI ReconstructionSession := {|
  PaperStorage_new := newSession;
  restoreFromQRString text s := fst (ingest text s);
  isDataReady := isComplete;
  getMissingDataBlocks := collapsedMissing;
  getData := assembled;
  _sha256 s := from_option (fun k => hexdigest (contentHash k)) EmptyString (manifest s);
  _identifier s := from_option identifier EmptyString (manifest s)
|}.

End Binding.

(** ** A worked restore, used to exercise the definitions

    A backup of the three bytes [hi!] in two blocks whose records carry a
    wrong content hash, scanned in two rounds into the folder [scans]. *)
Module Scenario.
Import Codec Wire Session Binding.

Definition record0 : string := "PS1||00|2|0|aGk=".
Definition record1 : string := "PS1||00|2|1|IQ==".

Definition page (name text : string) : dirent :=
  {| d_name := name; d_kind := File (Image [bytes_of_string text]) |}.

Definition first_scan : list dirent :=
  [ {| d_name := "notes.txt"; d_kind := File Unidentified |};
    {| d_name := "old"; d_kind := NotAFile |};
    page "page3.png" record1;
    {| d_name := "blank.png"; d_kind := File (Image []) |} ].

Definition second_scan : list dirent := first_scan ++ [page "page2.png" record0].

Definition disk_with (entries : list dirent) : disk :=
  {| dirs := {[ "scans" := entries ]}; files := ∅; can_create := fun _ => true |}.

(** The session after the first round: block 1 of 2. *)
Definition after_first : ReconstructionSession := fst (ingest record1 newSession).

(** The user names the folder, rescans page 2 when asked, and saves to
    [out.bin]. *)
Definition restore_run : world :=
  World [Line "scans"; Change (disk_with second_scan); Line ""; Line "out.bin"]
        (disk_with first_scan) [].

Definition second_round : world :=
  World [Change (disk_with second_scan); Line ""] (disk_with first_scan) [].

End Scenario.

(** The inputs on which the menu of lines 99-109 is left without a
    restore: the end of the input, an interrupt, or the number 0. *)
Definition quits (tail : list event) : bool :=
  match tail with
  | [] => true
  | Eof :: _ => true
  | Interrupt :: _ => true
  | Line text :: _ => bool_decide (py_int text = Some 0)
  | Change _ :: _ => false
  end.



(** ** The rest of [main]: the options and the encoding branch *)


Module Args.

(** [arguments], the namespace returned by [parser.parse_args] (lines
    78-85). *)
Record arguments := {
  outputFilename : string;
  inputFilename : option string;
  identifier : option string;
  format : string;
  forceStdin : bool;
  interactiveRestore : bool;
  blocksize : Z
}.

End Args.

(** Line 81: [--format] has [choices=['A4','Letter']], [default='A4'] and
    [type=str]; a value outside the choices is an argparse error. *)
Definition format_choices : list string := ["A4"; "Letter"]%string.

Definition parse_format (arg : option string) : result exn string :=
  match arg with
  | None => Ok "A4"%string
  | Some text =>
      if existsb (String.eqb text) format_choices then Ok text else Err (SystemExit 2)
  end.

(** Lines 135-138 *)
Definition select_format (format : string) : Layout.PageFormat :=
  if String.eqb format "Letter" then Layout.Letter else Layout.A4.

(** [text[-n:]] for a positive [n]: the last [n] characters, or the whole
    text when it is shorter. *)
Definition last_chars (n : nat) (text : string) : string :=
  let cs := list_ascii_of_string text in
  string_of_list_ascii (drop (length cs - n) cs).

(** Line 158 *)
Definition pdf_name (name : string) : string :=
  if String.eqb (last_chars 4 name) ".pdf" then name else name +:+ ".pdf".

(** [sys.stdin]: whether it is a terminal, and the bytes that
    [sys.stdin.buffer.read()] returns. *)
Record stdin_state := {
  isatty : bool;
  piped : bytes
}.

(** The part of [PaperStorage] that the encoding branch uses: the
    constructor and [fromFile], which may raise, and [savePDF], which
    answers whether the file was written. *)
Class PaperStorageWriterAPI (PS : Type) := {
  PaperStorage_init : bytes -> Z -> option string -> Layout.PageFormat -> result exn PS;
  fromFile : string -> Z -> option string -> Layout.PageFormat -> disk -> result exn PS;
  savePDF : string -> PS -> disk -> bool * disk
}.

(** What [except (ValueError)] catches among the exceptions of the model:
    [ValueError] itself and its subclass [UnicodeDecodeError]. *)
Definition is_ValueError (ex : exn) : bool :=
  match ex with
  | UnicodeDecodeError => true
  | OtherError name => String.eqb name "ValueError"
  | _ => false
  end.

Definition cannot_open : string := "Cannot open the specified input file.".

Definition saved_message (name : string) : string := "Saved backup as '" +:+ name +:+ "'".

Definition could_not_save_pdf : string := "Could not save backup as pdf file!".

Section Encode.
Context {PS : Type} `{PaperStorageAPI PS} `{PaperStorageWriterAPI PS}.

(** The text of [parser.print_help()]. *)
Variable help : string.

(** Lines 135-156: the object to save, or [None] where [main] returns. *)
Definition obtain (args : Args.arguments) (stdin : stdin_state) : io (option PS) :=
  fun w =>
    let size := select_format (Args.format args) in
    match Args.inputFilename args with
    | Some path =>
        match fromFile path (Args.blocksize args) (Args.identifier args) size (w_disk w) with
        | Ok ps => (Ok (Some ps), w)
        | Err ex =>
            if is_ValueError ex then (Ok None, print cannot_open w) else (Err ex, w)
        end
    | None =>
        if negb (isatty stdin) || Args.forceStdin args then
          match PaperStorage_init (piped stdin) (Args.blocksize args)
                  (Args.identifier args) size with
          | Ok ps => (Ok (Some ps), w)
          | Err ex => (Err ex, w)
          end
        else (Ok None, print help w)
    end.

(** Lines 158-163 *)
Definition save_pdf (args : Args.arguments) (ps : PS) : io unit :=
  fun w =>
    let name := pdf_name (Args.outputFilename args) in
    let '(saved, d) := savePDF name ps (w_disk w) in
    (Ok tt,
     print (if saved then saved_message name else could_not_save_pdf)
           (World (w_in w) d (w_out w))).

(** Lines 133-163 *)
Definition encode (args : Args.arguments) (stdin : stdin_state) : io unit :=
  let* source := obtain args stdin in
  match source with
  | Some ps => save_pdf args ps
  | None => io_ret tt
  end.

(** Lines 87-163 of [main], after the arguments are parsed. *)
Definition main (args : Args.arguments) (stdin : stdin_state) : io unit :=
  if Args.interactiveRestore args then interactive_restore else encode args stdin.

End Encode.

(** ** More worked runs *)
Module Scenario2.
Import Scenario.

(** A listing with a symbol that holds a byte above 127 between two good
    pages. *)
Definition damaged_scan : list dirent :=
  [ page "page3.png" record1;
    {| d_name := "page9.png"; d_kind := File (Image [[x50; xff]]) |};
    page "page2.png" record0 ].

(** A folder without any code. *)
Definition empty_scan : list dirent :=
  [ {| d_name := "notes.txt"; d_kind := File Unidentified |};
    {| d_name := "blank.png"; d_kind := File (Image []) |} ].

Definition two_folders : disk :=
  {| dirs := {[ "a" := first_scan; "b" := [page "page2.png" record0]; "ab" := second_scan ]};
     files := ∅; can_create := fun _ => true |}.

(** A [PaperStorage] writer that keeps the data and saves under every name
    but the empty one. *)
#[local] Instance Buffer_Writer : PaperStorageWriterAPI bytes := {|
  PaperStorage_init data size ident format := Ok data;
  fromFile path size ident format d :=
    match files d !! path with
    | Some data => Ok data
    | None => Err (OtherError "ValueError")
    end;
  savePDF name data d :=
    if String.eqb name EmptyString then (false, d)
    else (true, {| dirs := dirs d; files := <[name := data]> (files d);
                   can_create := can_create d |})
|}.

#[local] Instance Buffer_API : PaperStorageAPI bytes := {|
  PaperStorage_new := [];
  restoreFromQRString text data := data ++ bytes_of_string text;
  isDataReady data := false;
  getMissingDataBlocks data := [];
  getData data := data;
  _sha256 data := EmptyString;
  _identifier data := EmptyString
|}.

Definition encode_run (args : Args.arguments) (stdin : stdin_state) (w : world)
  : result exn unit * world :=
  encode "usage" args stdin w.

End Scenario2.

(** ** [__restoreFromFolder] when [restoreFromQRString] may raise

    The call of line 39 stands outside the [try] of lines 34-37, so an
    exception of [restoreFromQRString] leaves [__restoreFromFolder] like
    one of [PIL.Image.open].  [raises text ps] is the exception, if any,
    that the call raises on the object [ps]; with [raises] constantly
    [None] these are the definitions of the front end above. *)
Section RaisingRestore.
Context {PS : Type} `{PaperStorageAPI PS}.
Variable raises : string -> PS -> option exn.

(** [ps.restoreFromQRString(text)] *)
Definition call_restore (text : string) (ps : PS) : result exn PS :=
  match raises text ps with
  | Some ex => Err ex
  | None => Ok (restoreFromQRString text ps)
  end.

(** One call per text, in order, up to the first that raises. *)
Fixpoint feed_raising (texts : list string) (ps : PS) : result exn PS :=
  match texts with
  | [] => Ok ps
  | text :: rest =>
      match call_restore text ps with
      | Ok ps' => feed_raising rest ps'
      | Err ex => Err ex
      end
  end.

(** Lines 38-39 *)
Fixpoint ingest_codes_raising (codes : list bytes) (ps : PS) : result exn PS :=
  match codes with
  | [] => Ok ps
  | data :: rest =>
      match decode_ascii data with
      | Some text =>
          match call_restore text ps with
          | Ok ps' => ingest_codes_raising rest ps'
          | Err ex => Err ex
          end
      | None => Err UnicodeDecodeError
      end
  end.

(** Lines 32-39 *)
Fixpoint restore_entries_raising (entries : list dirent) (ps : PS) : result exn PS :=
  match entries with
  | [] => Ok ps
  | e :: rest =>
      match d_kind e with
      | NotAFile => restore_entries_raising rest ps
      | File Unidentified => restore_entries_raising rest ps
      | File (OpenRaises ex) => Err ex
      | File (Image codes) =>
          match ingest_codes_raising codes ps with
          | Ok ps' => restore_entries_raising rest ps'
          | Err ex => Err ex
          end
      end
  end.

(** Lines 31-40 *)
Definition __restoreFromFolder_raising (folder : string) (ps : option PS) (d : disk)
  : result exn PS :=
  let ps := default PaperStorage_new ps in
  match dirs d !! folder with
  | Some entries => restore_entries_raising entries ps
  | None => Err FileNotFoundError
  end.

End RaisingRestore.

(** ** Further worked sessions *)
Module Scenario3.
Import Codec Wire Session Binding Scenario.

(** Both blocks of the backup of [Scenario]: a complete session. *)
Definition both_blocks : ReconstructionSession := ingest_all [record1; record0] newSession.

(** The session that the round trip of [hello world] gives. *)
Definition hello : bytes := bytes_of_string "hello world".

Definition hello_session : ReconstructionSession :=
  match fromData hello None 50, split hello 50 with
  | Ok m, Ok chunks => ingest_all (map (fun c => serialize c m) chunks) newSession
  | _, _ => newSession
  end.

(** A listing with a file that cannot be read between two good pages. *)
Definition unreadable_scan : list dirent :=
  [ page "page3.png" record1;
    {| d_name := "locked.png"; d_kind := File (OpenRaises (OtherError "PermissionError")) |};
    page "page2.png" record0 ].

(** A [restoreFromQRString] that raises [ValueError] on every text that is
    not a chunk record. *)
Definition raises_on_malformed (text : string) (s : ReconstructionSession) : option exn :=
  match deserialize text with
  | Ok _ => None
  | Err _ => Some (OtherError "ValueError")
  end.

Definition scribbled_scan : list dirent :=
  [ page "page3.png" record1; page "label.png" "scribble"; page "page2.png" record0 ].

End Scenario3.

(** * Properties *)

(** ** Bytes, hexadecimal text and decimal numerals *)

Lemma byte_to_Z_range (b : byte) : 0 <= byte_to_Z b < 256.
Proof.
  unfold byte_to_Z. pose proof (Byte.to_N_bounded b). lia.
Qed.

Lemma byte_of_Z_eq (z : Z) (b : byte) : z mod 256 = byte_to_Z b -> byte_of_Z z = b.
Proof.
  intros Hz. unfold byte_of_Z. rewrite Hz. unfold byte_to_Z.
  rewrite N2Z.id, Byte.of_to_N. reflexivity.
Qed.

Lemma byte_of_to_Z (b : byte) : byte_of_Z (byte_to_Z b) = b.
Proof.
  apply byte_of_Z_eq. apply Z.mod_small, byte_to_Z_range.
Qed.

(** The implementation agrees with the published test vectors. *)
Example sha256_constants :
  length SHA256.K = 64%nat /\ hd 0 SHA256.K = 0x428a2f98 /\
  SHA256.sa SHA256.H0 = 0x6a09e667 /\ SHA256.sh SHA256.H0 = 0x5be0cd19.
Proof. vm_compute. auto. Qed.

Example sha256_empty :
  hexdigest (sha256 []) = "e3b0c44298fc1c149afbf4c8996fb92427ae41e4649b934ca495991b7852b855"%string.
Proof. vm_compute. reflexivity. Qed.

Example sha256_abc :
  hexdigest (sha256 (bytes_of_string "abc")) =
  "ba7816bf8f01cfea414140de5dae2223b00361a396177a9cb410ff61f20015ad"%string.
Proof. vm_compute. reflexivity. Qed.

Example sha256_two_blocks :
  hexdigest (sha256 (bytes_of_string "abcdbcdecdefdefgefghfghighijhijkijkljklmklmnlmnomnopnopq")) =
  "248d6a61d20638b8e5c026930c3e6039a33ce45964ff2167f6ecedd419db06c1"%string.
Proof. vm_compute. reflexivity. Qed.

(** A property checked on every number below [n] holds of every such
    number. *)
Lemma below_table (n : nat) (P : Z -> bool) :
  forallb (fun k => P (Z.of_nat k)) (seq 0 n) = true ->
  forall z, 0 <= z < Z.of_nat n -> P z = true.
Proof.
  intros Htable z Hz. rewrite forallb_forall in Htable.
  specialize (Htable (Z.to_nat z)). rewrite Z2Nat.id in Htable by lia.
  apply Htable, in_seq. lia.
Qed.

Lemma hex_value_digit (n : Z) : 0 <= n < 16 -> hex_value (hex_digit n) = Some n.
Proof.
  intros Hn.
  apply (below_table 16 (fun k => bool_decide (hex_value (hex_digit k) = Some k))) in Hn.
  - apply bool_decide_eq_true in Hn. exact Hn.
  - vm_compute. reflexivity.
Qed.

Lemma hex_decode_encode (bs : bytes) : hex_decode (hex_encode bs) = Some bs.
Proof.
  induction bs as [|b bs IH]; [reflexivity|].
  pose proof (byte_to_Z_range b) as Hb.
  cbn [hex_encode hex_decode].
  rewrite !hex_value_digit, IH.
  - f_equal. f_equal. apply byte_of_Z_eq.
    rewrite <- Z.div_mod by lia. apply Z.mod_small. lia.
  - apply Z.mod_pos_bound. lia.
  - split; [apply Z.div_pos; lia | apply Z.div_lt_upper_bound; lia].
Qed.

Lemma hex_encode_inj (a b : bytes) : hex_encode a = hex_encode b -> a = b.
Proof.
  intros Heq. apply (f_equal hex_decode) in Heq.
  rewrite !hex_decode_encode in Heq. congruence.
Qed.

Lemma hexdigest_inj (a b : bytes) : hexdigest a = hexdigest b <-> a = b.
Proof.
  split; [|congruence]. unfold hexdigest. intros Heq.
  apply hex_encode_inj.
  rewrite <- (list_ascii_of_string_of_list_ascii (hex_encode a)), Heq.
  apply list_ascii_of_string_of_list_ascii.
Qed.

(** The digest has 256 bits. *)
Lemma sha256_length (data : bytes) : length (sha256 data) = 32%nat.
Proof.
  unfold sha256, SHA256.digest.
  generalize (fold_left SHA256.compress
                (SHA256.groups (length (SHA256.pad (map byte_to_Z data))) 64
                   (SHA256.pad (map byte_to_Z data))) SHA256.H0).
  intros s. reflexivity.
Qed.

Lemma hexdigest_length (digest : bytes) :
  String.length (hexdigest digest) = (2 * length digest)%nat.
Proof.
  unfold hexdigest. induction digest as [|b bs IH]; [reflexivity|].
  cbn [hex_encode string_of_list_ascii String.length length]. rewrite IH. lia.
Qed.

Lemma uint_chars (d : Decimal.uint) :
  Forall (fun c => numeral_char c = true) (list_ascii_of_string (NilEmpty.string_of_uint d)).
Proof.
  induction d; cbn [NilEmpty.string_of_uint list_ascii_of_string];
    constructor; (reflexivity || assumption).
Qed.

Lemma nz_uint_chars (d : Decimal.uint) :
  Forall (fun c => numeral_char c = true) (list_ascii_of_string (NilZero.string_of_uint d)).
Proof.
  destruct d; try apply uint_chars. repeat constructor.
Qed.



(** ** Joining and splitting on a separator *)

Lemma split_on_free (sep : ascii) (f : list ascii) :
  Forall (fun c => c <> sep) f -> split_on sep f = [f].
Proof.
  induction 1 as [|c f Hc _ IH]; [reflexivity|].
  cbn [split_on]. rewrite IH.
  destruct (Ascii.eqb_spec c sep); [contradiction | reflexivity].
Qed.

Lemma split_on_app (sep : ascii) (f rest : list ascii) :
  Forall (fun c => c <> sep) f ->
  split_on sep (f ++ sep :: rest) = f :: split_on sep rest.
Proof.
  induction 1 as [|c f Hc _ IH]; cbn [app split_on].
  - rewrite Ascii.eqb_refl. reflexivity.
  - rewrite IH. destruct (Ascii.eqb_spec c sep); [contradiction | reflexivity].
Qed.

Lemma split_on_join (sep : ascii) (fields : list (list ascii)) :
  fields <> [] ->
  Forall (Forall (fun c => c <> sep)) fields ->
  split_on sep (join sep fields) = fields.
Proof.
  intros Hne Hfree. induction Hfree as [|f fs Hf Hfs IH]; [contradiction|].
  destruct fs as [|g fs].
  - apply split_on_free, Hf.
  - change (join sep (f :: g :: fs)) with (f ++ sep :: join sep (g :: fs)).
    rewrite split_on_app by exact Hf. f_equal. apply IH. discriminate.
Qed.

Lemma numeral_free (sep : ascii) (cs : list ascii) :
  numeral_char sep = false ->
  Forall (fun c => numeral_char c = true) cs ->
  Forall (fun c => c <> sep) cs.
Proof.
  intros Hsep Hcs. eapply Forall_impl; [exact Hcs|].
  intros c Hc ->. congruence.
Qed.


(** ** Base64 *)

Lemma list_ind3 {A} (P : list A -> Prop) :
  P [] -> (forall a, P [a]) -> (forall a b, P [a; b]) ->
  (forall a b c l, P l -> P (a :: b :: c :: l)) ->
  forall l, P l.
Proof.
  intros H0 H1 H2 H3 l.
  assert (P l /\ (forall a, P (a :: l)) /\ (forall a b, P (a :: b :: l))) as [Hl _].
  { induction l as [|x l (IH0 & IH1 & IH2)]; [auto|].
    split; [apply IH1|]. split; [intros a; apply IH2|]. intros a b. apply H3, IH0. }
  exact Hl.
Qed.

Ltac div_lia := Z.to_euclidean_division_equations; lia.

Lemma b64_value_char (s : Z) : 0 <= s < 64 -> Base64.value_of (Base64.char_of s) = Some s.
Proof.
  intros Hs.
  apply (below_table 64
    (fun k => bool_decide (Base64.value_of (Base64.char_of k) = Some k))) in Hs.
  - apply bool_decide_eq_true in Hs. exact Hs.
  - vm_compute. reflexivity.
Qed.

Lemma b64_char_not_pad (s : Z) :
  0 <= s < 64 -> Ascii.eqb (Base64.char_of s) Base64.pad_char = false.
Proof.
  intros Hs.
  apply (below_table 64
    (fun k => negb (Ascii.eqb (Base64.char_of k) Base64.pad_char))) in Hs.
  - apply negb_true_iff in Hs. exact Hs.
  - vm_compute. reflexivity.
Qed.

Lemma b64_decode_encode (bs : bytes) : Base64.decode (Base64.encode bs) = Some bs.
Proof.
  induction bs as [|b0|b0 b1|b0 b1 b2 rest IH] using list_ind3.
  - reflexivity.
  - pose proof (byte_to_Z_range b0).
    cbn [Base64.encode Base64.decode].
    rewrite !b64_value_char by div_lia.
    rewrite !Ascii.eqb_refl.
    do 2 f_equal. apply byte_of_Z_eq. div_lia.
  - pose proof (byte_to_Z_range b0). pose proof (byte_to_Z_range b1).
    cbn [Base64.encode Base64.decode].
    rewrite !b64_value_char by div_lia.
    rewrite Ascii.eqb_refl, b64_char_not_pad by div_lia.
    do 2 f_equal; [|f_equal]; apply byte_of_Z_eq; div_lia.
  - pose proof (byte_to_Z_range b0). pose proof (byte_to_Z_range b1).
    pose proof (byte_to_Z_range b2).
    cbn [Base64.encode Base64.decode].
    rewrite !b64_value_char by div_lia.
    rewrite b64_char_not_pad by div_lia.
    rewrite IH.
    do 2 f_equal; [|f_equal; [|f_equal]]; apply byte_of_Z_eq; div_lia.
Qed.

(** ** The separators do not occur inside fields *)

Lemma b64_encode_free (sep : ascii) (bs : bytes) :
  forallb (fun k => negb (Ascii.eqb (Base64.char_of (Z.of_nat k)) sep)) (seq 0 64) = true ->
  Ascii.eqb Base64.pad_char sep = false ->
  Forall (fun c => c <> sep) (Base64.encode bs).
Proof.
  intros Htable Hpad.
  assert (forall s, 0 <= s < 64 -> Base64.char_of s <> sep) as Hchar.
  { intros s Hs.
    apply (below_table 64 (fun k => negb (Ascii.eqb (Base64.char_of k) sep)) Htable) in Hs.
    apply negb_true_iff in Hs. destruct (Ascii.eqb_spec (Base64.char_of s) sep); congruence. }
  assert (Base64.pad_char <> sep) as Hp.
  { destruct (Ascii.eqb_spec Base64.pad_char sep); congruence. }
  induction bs as [|b0|b0 b1|b0 b1 b2 rest IH] using list_ind3.
  - constructor.
  - pose proof (byte_to_Z_range b0).
    cbn [Base64.encode]. repeat constructor; try exact Hp; apply Hchar; div_lia.
  - pose proof (byte_to_Z_range b0). pose proof (byte_to_Z_range b1).
    cbn [Base64.encode]. repeat constructor; try exact Hp; apply Hchar; div_lia.
  - pose proof (byte_to_Z_range b0). pose proof (byte_to_Z_range b1).
    pose proof (byte_to_Z_range b2).
    cbn [Base64.encode]. repeat (constructor; [apply Hchar; div_lia|]). exact IH.
Qed.

Lemma hex_encode_free (sep : ascii) (bs : bytes) :
  forallb (fun k => negb (Ascii.eqb (hex_digit (Z.of_nat k)) sep)) (seq 0 16) = true ->
  Forall (fun c => c <> sep) (hex_encode bs).
Proof.
  intros Htable.
  assert (forall s, 0 <= s < 16 -> hex_digit s <> sep) as Hchar.
  { intros s Hs.
    apply (below_table 16 (fun k => negb (Ascii.eqb (hex_digit k) sep)) Htable) in Hs.
    apply negb_true_iff in Hs. destruct (Ascii.eqb_spec (hex_digit s) sep); congruence. }
  induction bs as [|b bs IH]; [constructor|].
  pose proof (byte_to_Z_range b).
  cbn [hex_encode]. repeat (constructor; [apply Hchar; div_lia|]). exact IH.
Qed.


(** ** The chunk record: parsing inverts printing *)

Section WireFacts.
Import Codec Wire.

Lemma nat_of_dec_of_nat (n : nat) : nat_of_dec (dec_of_nat n) = Some n.
Proof.
  unfold nat_of_dec, dec_of_nat. rewrite string_of_list_ascii_of_string.
  pose proof (DecimalNat.Unsigned.of_to n) as Hn.
  destruct (Nat.to_uint n) eqn:Hd;
    try (rewrite NilZero.usu by discriminate; cbn [option_map]; congruence).
  cbn in Hn. subst n. reflexivity.
Qed.

Lemma dec_of_nat_free (n : nat) : Forall (fun c => c <> delimiter) (dec_of_nat n).
Proof.
  apply numeral_free; [reflexivity | apply nz_uint_chars].
Qed.

Lemma record_fields_free (c : Chunk) (m : BackupManifest) :
  Forall (Forall (fun ch => ch <> delimiter))
    [ version_tag;
      Base64.encode (bytes_of_string (identifier (key m)));
      hex_encode (contentHash (key m));
      dec_of_nat (chunkCount (key m));
      dec_of_nat (index c);
      Base64.encode (payload c) ].
Proof.
  apply Forall_cons_2; [repeat constructor; discriminate|].
  apply Forall_cons_2; [apply b64_encode_free; vm_compute; reflexivity|].
  apply Forall_cons_2; [apply hex_encode_free; vm_compute; reflexivity|].
  apply Forall_cons_2; [apply dec_of_nat_free|].
  apply Forall_cons_2; [apply dec_of_nat_free|].
  apply Forall_cons_2; [apply b64_encode_free; vm_compute; reflexivity|].
  constructor.
Qed.

Lemma deserialize_serialize (c : Chunk) (m : BackupManifest) :
  (index c < chunkCount (key m))%nat ->
  deserialize (serialize c m) = Ok (key m, c).
Proof.
  intros Hidx. unfold deserialize, serialize.
  rewrite list_ascii_of_string_of_list_ascii.
  rewrite split_on_join by (discriminate || apply record_fields_free).
  rewrite bool_decide_eq_true_2 by reflexivity.
  rewrite !b64_decode_encode, hex_decode_encode, !nat_of_dec_of_nat.
  apply Nat.ltb_lt in Hidx. rewrite Hidx.
  unfold bytes_of_string. rewrite string_of_list_byte_of_string.
  destruct m as [[ident hash count] len size], c as [idx body]. reflexivity.
Qed.

End WireFacts.

(** ** Splitting and concatenating *)

Section SplitFacts.
Import Codec.

Lemma valid_chunk_size_bounds (size : nat) :
  valid_chunk_size size = true <->
  (50 <= size <= 1500)%nat /\ (size mod 50 = 0)%nat.
Proof.
  unfold valid_chunk_size. rewrite !andb_true_iff, !Nat.leb_le, Nat.eqb_eq. tauto.
Qed.

Lemma chunk_count_covers (len size : nat) :
  (0 < size)%nat -> (len <= chunk_count len size * size)%nat.
Proof.
  intros Hsize. unfold chunk_count.
  pose proof (Nat.div_mod (len + size - 1) size ltac:(lia)) as Hdiv.
  pose proof (Nat.mod_upper_bound (len + size - 1) size ltac:(lia)) as Hmod.
  nia.
Qed.

Lemma concat_pieces (size : nat) :
  (0 < size)%nat ->
  forall (n : nat) (data : bytes),
    (length data <= n * size)%nat ->
    concat (map (fun i => take size (drop (i * size) data)) (seq 0 n)) = data.
Proof.
  intros Hsize n. induction n as [|n IH]; intros data Hlen.
  - destruct data; [reflexivity | cbn in Hlen; lia].
  - cbn [seq map concat]. rewrite Nat.mul_0_l, drop_0.
    etrans; [|apply (take_drop size data)]. f_equal.
    rewrite <- seq_shift, map_map.
    etrans; [|apply (IH (drop size data)); rewrite length_drop; lia].
    f_equal. apply map_ext. intros i. rewrite drop_drop. reflexivity.
Qed.

End SplitFacts.


(** ** The reconstruction session *)

Section SessionFacts.
Import Codec Wire Session.

Lemma ingest_all_cons (text : string) (texts : list string) (s : ReconstructionSession) :
  ingest_all (text :: texts) s = ingest_all texts (fst (ingest text s)).
Proof. reflexivity. Qed.

Lemma ingest_all_app (texts more : list string) (s : ReconstructionSession) :
  ingest_all (texts ++ more) s = ingest_all more (ingest_all texts s).
Proof. unfold ingest_all. apply fold_left_app. Qed.

(** A fixed manifest is never replaced. *)
Lemma ingest_manifest_kept (text : string) (s : ReconstructionSession) (k : ManifestKey) :
  manifest s = Some k -> manifest (fst (ingest text s)) = Some k.
Proof.
  intros Hk. unfold ingest.
  destruct (deserialize text) as [[k' c]|e]; [|exact Hk].
  rewrite Hk. cbn [from_option id].
  destruct (matches k k'); [|exact Hk].
  destruct (bool_decide _); reflexivity.
Qed.

Lemma ingest_all_manifest_kept (texts : list string) (s : ReconstructionSession)
    (k : ManifestKey) :
  manifest s = Some k -> manifest (ingest_all texts s) = Some k.
Proof.
  revert s. induction texts as [|t ts IH]; intros s Hk; [exact Hk|].
  rewrite ingest_all_cons. apply IH, ingest_manifest_kept, Hk.
Qed.

(** An ingest never removes an index from [received]. *)
Lemma ingest_received_kept (text : string) (s : ReconstructionSession) (i : nat) :
  is_Some (received s !! i) -> is_Some (received (fst (ingest text s)) !! i).
Proof.
  intros Hi. unfold ingest.
  destruct (deserialize text) as [[k c]|e]; [|exact Hi].
  destruct (matches _ k); [|exact Hi].
  destruct (bool_decide _); cbn [fst received]; [exact Hi|].
  destruct (decide (index c = i)) as [<-|Hne].
  - rewrite lookup_insert_eq. eauto.
  - rewrite lookup_insert_ne by exact Hne. exact Hi.
Qed.

Lemma ingest_all_received_kept (texts : list string) (s : ReconstructionSession) (i : nat) :
  is_Some (received s !! i) -> is_Some (received (ingest_all texts s) !! i).
Proof.
  revert s. induction texts as [|t ts IH]; intros s Hi; [exact Hi|].
  rewrite ingest_all_cons. apply IH, ingest_received_kept, Hi.
Qed.

(** Ingesting a record of the session's own backup stores its payload at
    its index and touches nothing else. *)
Lemma ingest_valid (text : string) (k : ManifestKey) (c : Chunk) (s : ReconstructionSession) :
  deserialize text = Ok (k, c) ->
  manifest s = None \/ manifest s = Some k ->
  manifest (fst (ingest text s)) = Some k /\
  received (fst (ingest text s)) !! index c = Some (payload c) /\
  (forall j, j <> index c -> received (fst (ingest text s)) !! j = received s !! j).
Proof.
  intros Hparse Hman. unfold ingest. rewrite Hparse.
  assert (default k (manifest s) = k) as -> by (destruct Hman as [-> | ->]; reflexivity).
  unfold matches. rewrite bool_decide_eq_true_2 by reflexivity.
  destruct (bool_decide _) eqn:Hdup; cbn [fst manifest received].
  - apply bool_decide_eq_true in Hdup. auto.
  - split; [reflexivity|]. split; [apply lookup_insert_eq|].
    intros j Hj. apply lookup_insert_ne. congruence.
Qed.

Lemma ingest_all_chunks (m : BackupManifest) (body : nat -> bytes) (idxs : list nat)
    (s : ReconstructionSession) :
  Forall (fun i => (i < chunkCount (key m))%nat) idxs ->
  manifest s = None \/ manifest s = Some (key m) ->
  let s' := ingest_all (map (fun i => serialize {| index := i; payload := body i |} m) idxs) s in
  (idxs <> [] -> manifest s' = Some (key m)) /\
  (forall i, i ∈ idxs -> received s' !! i = Some (body i)) /\
  (forall j, j ∉ idxs -> received s' !! j = received s !! j).
Proof.
  intros Hidx. revert s. induction Hidx as [|i idxs Hi _ IH]; intros s Hman.
  - cbn. split; [congruence|]. split; [|reflexivity]. intros i Hi. inversion Hi.
  - cbn [map]. rewrite ingest_all_cons.
    pose proof (ingest_valid _ _ _ s
                  (deserialize_serialize {| index := i; payload := body i |} m Hi) Hman)
      as (Hm1 & Hhere & Hother).
    cbn [index payload] in Hhere, Hother.
    destruct (IH _ (or_intror Hm1)) as (_ & IHin & IHout).
    split; [|split].
    + intros _. apply ingest_all_manifest_kept, Hm1.
    + intros j Hj. destruct (decide (j ∈ idxs)) as [Hin|Hout]; [apply IHin, Hin|].
      apply elem_of_cons in Hj as [->|Hin]; [|contradiction].
      rewrite IHout by exact Hout. exact Hhere.
    + intros j Hj. apply not_elem_of_cons in Hj as [Hne Hout].
      rewrite IHout by exact Hout. apply Hother, Hne.
Qed.

(** Nothing structurally valid has been ingested exactly when the manifest
    is still unset. *)
Lemma manifest_unset_iff (texts : list string) (s : ReconstructionSession) :
  manifest s = None ->
  manifest (ingest_all texts s) = None <->
  Forall (fun text => deserialize text = Err BadRecord) texts.
Proof.
  revert s. induction texts as [|t ts IH]; intros s Hs.
  - cbn. split; [constructor | intros _; exact Hs].
  - rewrite ingest_all_cons, Forall_cons.
    destruct (deserialize t) as [[k c]|[]] eqn:Hparse.
    + destruct (ingest_valid t k c s Hparse (or_introl Hs)) as (Hk & _).
      rewrite (ingest_all_manifest_kept ts _ k Hk).
      split; [discriminate | intros [[=] _]].
    + assert (fst (ingest t s) = s) as -> by (unfold ingest; rewrite Hparse; reflexivity).
      rewrite (IH s Hs). tauto.
Qed.

Lemma missing_nil_iff_complete (s : ReconstructionSession) :
  missingIndices s = Missing [] <-> isComplete s = true.
Proof.
  unfold missingIndices, isComplete. destruct (manifest s) as [k|]; [|split; discriminate].
  generalize (seq 0 (chunkCount k)). intros l.
  induction l as [|i l IH]; [cbn; tauto|].
  cbn [forallb]. rewrite filter_cons, andb_true_iff, bool_decide_eq_true.
  destruct (received s !! i) as [p|] eqn:Hi.
  - rewrite decide_False by discriminate. rewrite IH. split; [eauto | tauto].
  - rewrite decide_True by reflexivity. split; [discriminate|].
    intros [[p [=]] _].
Qed.

End SessionFacts.


(** ** The front end, for any implementation of the [PaperStorage] object *)

Section FrontEndFacts.
Context {PS : Type} `{PaperStorageAPI PS}.

Lemma feed_app (texts more : list string) (ps : PS) :
  feed (texts ++ more) ps = feed more (feed texts ps).
Proof. unfold feed. apply fold_left_app. Qed.

Lemma ingest_codes_spec (codes : list bytes) (ps : PS) :
  ingest_codes codes ps =
  if forallb ascii_only codes then Ok (feed (map string_of_list_byte codes) ps)
  else Err UnicodeDecodeError.
Proof.
  revert ps. induction codes as [|data codes IH]; intros ps; [reflexivity|].
  cbn [ingest_codes forallb map]. unfold decode_ascii.
  destruct (ascii_only data); [|reflexivity].
  rewrite IH. reflexivity.
Qed.

Lemma folder_texts_cons (e : dirent) (entries : list dirent) :
  folder_texts (e :: entries) = decoded_texts e ++ folder_texts entries.
Proof. reflexivity. Qed.

(** One step of the loop of lines 32-39. *)
Lemma restore_entries_cons (e : dirent) (entries : list dirent) (ps : PS) :
  restore_entries (e :: entries) ps =
  if benign e then restore_entries entries (feed (decoded_texts e) ps)
  else Err match d_kind e with
           | File (OpenRaises ex) => ex
           | _ => UnicodeDecodeError
           end.
Proof.
  cbn [restore_entries]. unfold benign, decoded_texts.
  destruct (d_kind e) as [|[|ex|codes]]; try reflexivity.
  rewrite ingest_codes_spec. destruct (forallb ascii_only codes); reflexivity.
Qed.

Lemma restore_entries_ok (entries : list dirent) (ps : PS) :
  forallb benign entries = true ->
  restore_entries entries ps = Ok (feed (folder_texts entries) ps).
Proof.
  revert ps. induction entries as [|e entries IH]; intros ps Hall; [reflexivity|].
  cbn [forallb] in Hall. apply andb_true_iff in Hall as [He Hall].
  rewrite restore_entries_cons, He, folder_texts_cons, feed_app. apply IH, Hall.
Qed.

Lemma restore_entries_feeds (entries : list dirent) (ps ps' : PS) :
  restore_entries entries ps = Ok ps' ->
  forallb benign entries = true /\ ps' = feed (folder_texts entries) ps.
Proof.
  revert ps. induction entries as [|e entries IH]; intros ps Hrun.
  - cbn in Hrun. injection Hrun as <-. split; reflexivity.
  - rewrite restore_entries_cons in Hrun. cbn [forallb].
    destruct (benign e); [|discriminate].
    rewrite folder_texts_cons, feed_app. apply IH, Hrun.
Qed.

Lemma restore_entries_skip (pre post : list dirent) (e : dirent) (ps : PS) :
  benign e = true -> decoded_texts e = [] ->
  restore_entries (pre ++ e :: post) ps = restore_entries (pre ++ post) ps.
Proof.
  intros He Hnone. revert ps. induction pre as [|x pre IH]; intros ps.
  - cbn [app]. rewrite restore_entries_cons, He, Hnone. reflexivity.
  - cbn [app]. rewrite !restore_entries_cons.
    destruct (benign x); [apply IH | reflexivity].
Qed.

Lemma restoreFromFolder_feeds (folder : string) (ps : option PS) (d : disk) (ps' : PS) :
  __restoreFromFolder folder ps d = Ok ps' ->
  exists texts, ps' = feed texts (default PaperStorage_new ps).
Proof.
  unfold __restoreFromFolder. destruct (dirs d !! folder) as [entries|]; [|discriminate].
  intros Hrun. apply restore_entries_feeds in Hrun as [_ ->]. eauto.
Qed.

(** The session that leaves the rescan loop is the one that entered it,
    after further calls of [restoreFromQRString]. *)
Lemma rescan_wait_feeds (folder : string) (inp : list event) :
  forall (ps : PS) (d : disk) (out : list output) (ps' : PS) (w' : world),
    rescan_wait folder ps inp d out = (Ok ps', w') ->
    exists texts, ps' = feed texts ps.
Proof.
  induction inp as [|ev inp IH]; intros ps d out ps' w' Hrun; [discriminate|].
  destruct ev as [line| | |d']; cbn [rescan_wait] in Hrun; try discriminate.
  - destruct (__restoreFromFolder folder (Some ps) d) as [ps1|ex] eqn:Hround; [|discriminate].
    apply restoreFromFolder_feeds in Hround as [texts ->]. cbn [from_option id] in *.
    destruct (rescan_head _); try discriminate.
    + injection Hrun as <- _. eauto.
    + apply IH in Hrun as [more ->]. exists (texts ++ more). symmetry. apply feed_app.
  - eapply IH, Hrun.
Qed.

Lemma rescan_loop_feeds (folder : string) (ps ps' : PS) (w w' : world) :
  rescan_loop folder ps w = (Ok ps', w') -> exists texts, ps' = feed texts ps.
Proof.
  unfold rescan_loop. destruct (rescan_head ps); try discriminate.
  - intros [= <- _]. exists []. reflexivity.
  - apply rescan_wait_feeds.
Qed.


End FrontEndFacts.


(** ** [__restoreFromFolder] when [restoreFromQRString] may raise *)

Section RaisingFacts.
Context {PS : Type} `{PaperStorageAPI PS}.
Variable raises : string -> PS -> option exn.

Lemma feed_raising_app (a b : list string) (ps : PS) :
  feed_raising raises (a ++ b) ps =
  match feed_raising raises a ps with
  | Ok ps' => feed_raising raises b ps'
  | Err ex => Err ex
  end.
Proof.
  revert ps. induction a as [|t a IH]; intros ps; [reflexivity|].
  cbn [app feed_raising]. destruct (call_restore raises t ps); [apply IH | reflexivity].
Qed.

Lemma ingest_codes_raising_app (a b : list bytes) (ps : PS) :
  ingest_codes_raising raises (a ++ b) ps =
  match ingest_codes_raising raises a ps with
  | Ok ps' => ingest_codes_raising raises b ps'
  | Err ex => Err ex
  end.
Proof.
  revert ps. induction a as [|c a IH]; intros ps; [reflexivity|].
  cbn [app ingest_codes_raising]. destruct (decode_ascii c); [|reflexivity].
  destruct (call_restore raises s ps); [apply IH | reflexivity].
Qed.

Lemma ingest_codes_raising_ascii (codes : list bytes) (ps : PS) :
  forallb ascii_only codes = true ->
  ingest_codes_raising raises codes ps
    = feed_raising raises (map string_of_list_byte codes) ps.
Proof.
  revert ps. induction codes as [|c codes IH]; intros ps Hall; [reflexivity|].
  cbn [forallb] in Hall. apply andb_prop in Hall as [Hc Hall].
  cbn [ingest_codes_raising map feed_raising]. unfold decode_ascii. rewrite Hc.
  destruct (call_restore raises _ ps); [apply IH, Hall | reflexivity].
Qed.

Lemma ingest_codes_raising_ok (codes : list bytes) (ps ps' : PS) :
  ingest_codes_raising raises codes ps = Ok ps' -> forallb ascii_only codes = true.
Proof.
  revert ps. induction codes as [|c codes IH]; intros ps Hrun; [reflexivity|].
  cbn [ingest_codes_raising] in Hrun. unfold decode_ascii in Hrun. cbn [forallb].
  destruct (ascii_only c); [|discriminate].
  destruct (call_restore raises _ ps) as [ps1|ex]; [|discriminate].
  exact (IH _ Hrun).
Qed.

Lemma restore_entries_raising_app (a b : list dirent) (ps : PS) :
  restore_entries_raising raises (a ++ b) ps =
  match restore_entries_raising raises a ps with
  | Ok ps' => restore_entries_raising raises b ps'
  | Err ex => Err ex
  end.
Proof.
  revert ps. induction a as [|e a IH]; intros ps; [reflexivity|].
  cbn [app restore_entries_raising].
  destruct (d_kind e) as [|[|ex|codes]]; try apply IH; try reflexivity.
  destruct (ingest_codes_raising raises codes ps); [apply IH | reflexivity].
Qed.

Lemma restore_entries_raising_benign (entries : list dirent) (ps : PS) :
  forallb benign entries = true ->
  restore_entries_raising raises entries ps
    = feed_raising raises (folder_texts entries) ps.
Proof.
  revert ps. induction entries as [|e entries IH]; intros ps Hall; [reflexivity|].
  cbn [forallb] in Hall. apply andb_prop in Hall as [He Hall].
  rewrite folder_texts_cons, feed_raising_app. cbn [restore_entries_raising].
  unfold benign in He. unfold decoded_texts.
  destruct (d_kind e) as [|[|ex|codes]]; try discriminate;
    cbn [feed_raising]; try (apply IH, Hall).
  rewrite ingest_codes_raising_ascii by exact He.
  destruct (feed_raising raises _ ps); [apply IH, Hall | reflexivity].
Qed.

Lemma restore_entries_raising_ok (entries : list dirent) (ps ps' : PS) :
  restore_entries_raising raises entries ps = Ok ps' -> forallb benign entries = true.
Proof.
  revert ps. induction entries as [|e entries IH]; intros ps Hrun; [reflexivity|].
  cbn [restore_entries_raising] in Hrun. cbn [forallb]. unfold benign at 1.
  destruct (d_kind e) as [|[|ex|codes]]; try discriminate; try exact (IH _ Hrun).
  destruct (ingest_codes_raising raises codes ps) as [ps1|ex] eqn:Hcodes; [|discriminate].
  rewrite (ingest_codes_raising_ok _ _ _ Hcodes). exact (IH _ Hrun).
Qed.

End RaisingFacts.

Section NeverRaising.
Context {PS : Type} `{PaperStorageAPI PS}.

Lemma feed_raising_never (texts : list string) (ps : PS) :
  feed_raising (fun _ _ => None) texts ps = Ok (feed texts ps).
Proof.
  revert ps. induction texts as [|t texts IH]; intros ps; [reflexivity|].
  cbn [feed_raising]. unfold call_restore. apply IH.
Qed.

Lemma ingest_codes_raising_never (codes : list bytes) (ps : PS) :
  ingest_codes_raising (fun _ _ => None) codes ps = ingest_codes codes ps.
Proof.
  revert ps. induction codes as [|c codes IH]; intros ps; [reflexivity|].
  cbn [ingest_codes_raising ingest_codes]. destruct (decode_ascii c); [|reflexivity].
  unfold call_restore. apply IH.
Qed.

Lemma restore_entries_raising_never (entries : list dirent) (ps : PS) :
  restore_entries_raising (fun _ _ => None) entries ps = restore_entries entries ps.
Proof.
  revert ps. induction entries as [|e entries IH]; intros ps; [reflexivity|].
  cbn [restore_entries_raising restore_entries].
  destruct (d_kind e) as [|[|ex|codes]]; [apply IH | apply IH | reflexivity |].
  rewrite ingest_codes_raising_never. destruct (ingest_codes codes ps); [apply IH | reflexivity].
Qed.

Lemma restoreFromFolder_raising_never (folder : string) (ps : option PS) (d : disk) :
  __restoreFromFolder_raising (fun _ _ => None) folder ps d = __restoreFromFolder folder ps d.
Proof.
  unfold __restoreFromFolder_raising, __restoreFromFolder.
  destruct (dirs d !! folder); [apply restore_entries_raising_never | reflexivity].
Qed.
End NeverRaising.


(** ** Claims about the front end *)

Section FrontEndClaims.
Context {PS : Type} `{PaperStorageAPI PS}.

(** C7 (amended): during a folder restore the entries of the listing are
    taken in order.  As long as [PIL.Image.open] raises nothing but
    [UnidentifiedImageError] and every symbol holds ASCII data, each
    recognized code yields exactly one [restoreFromQRString] call with its
    decoded text, up to the first call that raises, whose exception ends
    the restore; an entry that yields no text (a non-file, a file that is
    not an image, an image without codes) is passed over.  A file on which
    [PIL.Image.open] raises another exception and a symbol with a
    non-ASCII byte are not skipped: they end the restore with that
    exception, or [UnicodeDecodeError], after the calls for the codes
    before them. *)
Theorem restore_folder_calls_or_aborts
    (raises : string -> PS -> option exn)
    (folder : string) (ps : option PS) (d : disk) (entries : list dirent) :
  dirs d !! folder = Some entries ->
  (forallb benign entries = true ->
     __restoreFromFolder_raising raises folder ps d
       = feed_raising raises (folder_texts entries) (default PaperStorage_new ps)) /\
  (forall pre e post,
     entries = pre ++ e :: post -> benign e = true -> decoded_texts e = [] ->
     __restoreFromFolder_raising raises folder ps d
       = restore_entries_raising raises (pre ++ post) (default PaperStorage_new ps)) /\
  (forall pre e post ex,
     entries = pre ++ e :: post -> forallb benign pre = true ->
     d_kind e = File (OpenRaises ex) ->
     __restoreFromFolder_raising raises folder ps d
       = match feed_raising raises (folder_texts pre) (default PaperStorage_new ps) with
         | Ok _ => Err ex
         | Err earlier => Err earlier
         end) /\
  (forall pre e post codes bad more,
     entries = pre ++ e :: post -> forallb benign pre = true ->
     d_kind e = File (Image (codes ++ bad :: more)) ->
     forallb ascii_only codes = true -> ascii_only bad = false ->
     __restoreFromFolder_raising raises folder ps d
       = match feed_raising raises (folder_texts pre ++ map string_of_list_byte codes)
                 (default PaperStorage_new ps) with
         | Ok _ => Err UnicodeDecodeError
         | Err earlier => Err earlier
         end).
Proof.
  intros Hdir. unfold __restoreFromFolder_raising. rewrite Hdir. cbn zeta.
  generalize (default PaperStorage_new ps). intros p0.
  split; [|split; [|split]].
  - apply restore_entries_raising_benign.
  - intros pre e post -> He Hnone. rewrite !restore_entries_raising_app.
    destruct (restore_entries_raising raises pre p0) as [p1|ex]; [|reflexivity].
    cbn [restore_entries_raising]. unfold benign in He. unfold decoded_texts in Hnone.
    destruct (d_kind e) as [|[|ex|codes]]; try reflexivity; try discriminate.
    destruct codes; [reflexivity | discriminate].
  - intros pre e post ex -> Hpre He. rewrite restore_entries_raising_app.
    rewrite restore_entries_raising_benign by exact Hpre.
    destruct (feed_raising raises (folder_texts pre) p0) as [p1|earlier]; [|reflexivity].
    cbn [restore_entries_raising]. rewrite He. reflexivity.
  - intros pre e post codes bad more -> Hpre He Hcodes Hbad.
    rewrite restore_entries_raising_app, feed_raising_app.
    rewrite restore_entries_raising_benign by exact Hpre.
    destruct (feed_raising raises (folder_texts pre) p0) as [p1|earlier]; [|reflexivity].
    cbn [restore_entries_raising]. rewrite He, ingest_codes_raising_app.
    rewrite ingest_codes_raising_ascii by exact Hcodes.
    destruct (feed_raising raises (map string_of_list_byte codes) p1) as [p2|earlier];
      [|reflexivity].
    cbn [ingest_codes_raising]. unfold decode_ascii. rewrite Hbad. reflexivity.
Qed.

Lemma save_run (ps : PS) (w : world) :
  save ps w =
  match read_input (w_in w) (w_disk w) with
  | (Ok filename, (rest, d)) =>
      if can_create d filename then
        (Ok tt,
         World rest
           {| dirs := dirs d; files := <[filename := getData ps]> (files d);
              can_create := can_create d |}
           (w_out w ++ [Prompt save_prompt]))
      else
        (Err (UnboundLocalError "_file"),
         World rest d (w_out w ++ [Prompt save_prompt; Print could_not_save]))
  | (Err ex, (rest, d)) => (Err ex, World rest d (w_out w ++ [Prompt save_prompt]))
  end.
Proof.
  unfold save, choose_file, io_bind, input.
  destruct (read_input (w_in w) (w_disk w)) as [[filename|ex] [rest d]]; [|reflexivity].
  unfold open_wb. cbn [w_disk w_in w_out].
  destruct (can_create d filename).
  - cbn [write_and_close w_in w_disk w_out]. unfold write_file. cbn [files dirs can_create].
    rewrite lookup_insert_eq, insert_insert_eq. reflexivity.
  - unfold io_raise, print. cbn [w_in w_disk w_out].
    rewrite <- app_assoc. reflexivity.
Qed.

(** C10: the filename loop of the save step runs its body once.  Exactly
    one line is read; when the file cannot be opened the message is
    printed, no second prompt follows, and the write fails because [_file]
    was never bound; the data is written only when that one [open]
    succeeded. *)
Theorem save_asks_once (ps : PS) (w : world) :
  match read_input (w_in w) (w_disk w) with
  | (Ok filename, (rest, d)) =>
      w_in (snd (save ps w)) = rest /\
      if can_create d filename then
        fst (save ps w) = Ok tt /\
        files (w_disk (snd (save ps w))) = <[filename := getData ps]> (files d) /\
        w_out (snd (save ps w)) = w_out w ++ [Prompt save_prompt]
      else
        fst (save ps w) = Err (UnboundLocalError "_file") /\
        w_disk (snd (save ps w)) = d /\
        w_out (snd (save ps w)) = w_out w ++ [Prompt save_prompt; Print could_not_save]
  | (Err ex, (rest, d)) =>
      save ps w = (Err ex, World rest d (w_out w ++ [Prompt save_prompt]))
  end.
Proof.
  rewrite save_run.
  destruct (read_input (w_in w) (w_disk w)) as [[filename|ex] [rest d]]; [|reflexivity].
  destruct (can_create d filename); cbn [fst snd w_in w_disk w_out files]; auto.
Qed.

(** C3: when the hash of the restored data differs from the stored one,
    the warning is printed and the restore goes on to the save step: the
    data is written to the file the user names. *)
Theorem mismatch_is_not_fatal
    (ps0 : option PS) (w w2 : world) (ps : PS)
    (filename : string) (rest : list event) (d : disk) :
  restore_session ps0 w = (Ok ps, w2) ->
  hash_matches ps = false ->
  read_input (w_in w2) (w_disk w2) = (Ok filename, (rest, d)) ->
  can_create d filename = true ->
  __interactiveFolder ps0 w =
    (Ok tt,
     World rest
       {| dirs := dirs d; files := <[filename := getData ps]> (files d);
          can_create := can_create d |}
       (w_out w2 ++ [Print (mismatch_message (_identifier ps)); Prompt save_prompt])).
Proof.
  intros Hsession Hhash Hread Hopen.
  unfold __interactiveFolder, io_bind at 1. rewrite Hsession.
  unfold io_bind at 1. unfold report. rewrite Hhash.
  rewrite save_run. cbn [print w_in w_disk w_out]. rewrite Hread, Hopen.
  rewrite <- app_assoc. reflexivity.
Qed.

(** C4: the integrity check of line 56 recomputes the SHA-256 digest (32
    bytes, 256 bits) of the restored data and compares it with the stored
    hash: for a stored hash that is the hexadecimal form of a digest
    [stored], the check succeeds exactly when [stored] is the SHA-256
    digest of [getData()], and the message printed follows that equality.
    The digest is the one of FIPS 180-4: for the empty data and for [abc]
    the check succeeds exactly for the published digests. *)
Theorem hash_check_compares_digests (ps : PS) (stored : bytes) (w : world) :
  _sha256 ps = hexdigest stored ->
  length (sha256 (getData ps)) = 32%nat /\
  (hash_matches ps = true <-> stored = sha256 (getData ps)) /\
  (stored = sha256 (getData ps) ->
     report ps w = print (success_message (_identifier ps)) w) /\
  (stored <> sha256 (getData ps) ->
     report ps w = print (mismatch_message (_identifier ps)) w) /\
  (getData ps = [] ->
     (hash_matches ps = true <->
      _sha256 ps = "e3b0c44298fc1c149afbf4c8996fb92427ae41e4649b934ca495991b7852b855"%string)) /\
  (getData ps = bytes_of_string "abc" ->
     (hash_matches ps = true <->
      _sha256 ps = "ba7816bf8f01cfea414140de5dae2223b00361a396177a9cb410ff61f20015ad"%string)).
Proof.
  intros Hstored.
  assert (hash_matches ps = true <-> stored = sha256 (getData ps)) as Hiff.
  { unfold hash_matches. rewrite Hstored, String.eqb_eq. apply hexdigest_inj. }
  split; [apply sha256_length|]. split; [exact Hiff|].
  split; [|split; [|split]].
  - intros Heq. apply Hiff in Heq. unfold report. rewrite Heq. reflexivity.
  - intros Hne. unfold report. destruct (hash_matches ps) eqn:Hm; [|reflexivity].
    destruct Hne. apply Hiff. reflexivity.
  - intros Hdata. unfold hash_matches. rewrite Hdata, String.eqb_eq. reflexivity.
  - intros Hdata. unfold hash_matches. rewrite Hdata, String.eqb_eq. reflexivity.
Qed.

End FrontEndClaims.


Section FrontEndClaims2.
Context {PS : Type} `{PaperStorageAPI PS}.



Lemma ask_choice_chosen (pre : list event) (text : string) (n : Z) (rest : list event) :
  forallb asks_again pre = true ->
  py_int text = Some n ->
  Z.abs n <= 3 ->
  forall (choice : option Z) (d : disk) (out : list output),
  exists d' out',
    ask_choice choice (pre ++ Line text :: rest) d out
      = (Ok (Some (Z.abs n)), World rest d' out').
Proof.
  intros Hpre Hint Hle. induction pre as [|ev pre IH]; intros choice d out.
  - cbn [app ask_choice]. rewrite Hint.
    apply Z.leb_le in Hle. rewrite Hle. eauto.
  - cbn [forallb] in Hpre. apply andb_true_iff in Hpre as [Hev Hpre].
    destruct ev as [s| | |d1]; cbn [asks_again] in Hev; try discriminate;
      cbn [app ask_choice]; [|apply IH, Hpre].
    destruct (py_int s) as [k|]; [|apply IH, Hpre].
    apply negb_true_iff in Hev. rewrite Hev. apply IH, Hpre.
Qed.

(** C9: in the interactive restore, choosing the webcam (entry 2 of the
    menu, or entry 3 followed by no, no and yes to the scanner, smartphone
    and webcam questions) raises [NotImplementedError]; the exception
    leaves the restore. *)
Theorem webcam_raises_not_implemented
    (pre : list event) (text : string) (n : Z) (rest : list event)
    (d : disk) (out : list output) :
  forallb asks_again pre = true ->
  py_int text = Some n ->
  Z.abs n = 2 \/
  (Z.abs n = 3 /\
   exists no1 no2 yes rest',
     rest = Line no1 :: Line no2 :: Line yes :: rest' /\
     startswith_y no1 = false /\ startswith_y no2 = false /\ startswith_y yes = true) ->
  fst (interactive_restore (World (pre ++ Line text :: rest) d out))
    = Err (NotImplementedError "TODO").
Proof.
  intros Hpre Hint Hpath.
  assert (Z.abs n <= 3) as Hle by (destruct Hpath as [->|[-> _]]; lia).
  unfold interactive_restore, io_bind, io_print, print. cbn [w_in w_disk w_out].
  destruct (ask_choice_chosen pre text n rest Hpre Hint Hle None d
              ((out ++ [Print menu]) ++ [Prompt choice_prompt])) as (d' & out' & ->).
  destruct Hpath as [-> | [-> (no1 & no2 & yes & rest' & -> & Hno1 & Hno2 & Hyes)]].
  - reflexivity.
  - cbn [dispatch]. unfold guided, io_bind, input.
    cbn [w_in w_disk w_out read_input]. rewrite Hno1.
    cbn [w_in w_disk w_out read_input]. rewrite Hno2.
    cbn [w_in w_disk w_out read_input]. rewrite Hyes.
    reflexivity.
Qed.

End FrontEndClaims2.

(** ** The block size option *)

Lemma py_range_mem (start stop step n : Z) :
  0 < step ->
  existsb (Z.eqb n) (py_range start stop step) = true <->
  start <= n < stop /\ (n - start) mod step = 0.
Proof.
  intros Hstep. unfold py_range. rewrite existsb_exists. split.
  - intros (x & Hin & Heq). apply Z.eqb_eq in Heq. subst x.
    apply in_map_iff in Hin as (k & <- & Hk). apply in_seq in Hk.
    assert (Z.of_nat k < (stop - start + step - 1) / step) as Hlt by lia.
    pose proof (Z.mul_div_le (stop - start + step - 1) step Hstep).
    split; [nia|].
    replace (start + Z.of_nat k * step - start) with (Z.of_nat k * step) by lia.
    apply Z.mod_mul. lia.
  - intros [Hrange Hmod]. exists n. split; [|apply Z.eqb_refl].
    apply in_map_iff. exists (Z.to_nat ((n - start) / step)).
    pose proof (Z.div_pos (n - start) step ltac:(lia) Hstep).
    assert (n - start = step * ((n - start) / step)) as Hexact
      by (apply Z.div_exact; lia).
    rewrite Z2Nat.id by lia. split; [lia|].
    assert ((n - start) / step + 1 <= (stop - start + step - 1) / step) as Hnext
      by (apply Z.div_le_lower_bound; [lia | nia]).
    apply in_seq. lia.
Qed.

Lemma blocksize_choice_iff (n : Z) :
  existsb (Z.eqb n) blocksize_choices = true <-> 50 <= n <= 1500 /\ n mod 50 = 0.
Proof.
  unfold blocksize_choices. rewrite py_range_mem by lia.
  split; intros [Hrange Hmod]; (split; [lia|]); revert Hmod; div_lia.
Qed.

(** C6: the block size given with [-b] is accepted exactly when it is one
    of 50, 100, ..., 1500; every other value ends the program with an
    argparse error, and without [-b] the block size is 1500. *)
Theorem blocksize_bounds :
  parse_blocksize None = Ok 1500 /\
  (forall text n,
     parse_blocksize (Some text) = Ok n <->
     py_int text = Some n /\ 50 <= n <= 1500 /\ n mod 50 = 0) /\
  (forall text,
     parse_blocksize (Some text) =
     match py_int text with
     | Some n =>
         if (50 <=? n) && (n <=? 1500) && (n mod 50 =? 0) then Ok n
         else Err (SystemExit 2)
     | None => Err (SystemExit 2)
     end) /\
  blocksize_choices = map (fun k => 50 * Z.of_nat k) (seq 1 30).
Proof.
  split; [reflexivity|]. split; [|split; [|vm_compute; reflexivity]].
  - intros text n. unfold parse_blocksize.
    destruct (py_int text) as [k|]; [|split; [discriminate | intros [[=] _]]].
    destruct (existsb (Z.eqb k) blocksize_choices) eqn:Hin.
    + apply blocksize_choice_iff in Hin. split.
      * intros [= <-]. auto.
      * intros [[= <-] _]. reflexivity.
    + split; [discriminate|]. intros [[= <-] Hn].
      apply blocksize_choice_iff in Hn. congruence.
  - intros text. unfold parse_blocksize. destruct (py_int text) as [k|]; [|reflexivity].
    destruct (existsb (Z.eqb k) blocksize_choices) eqn:Hin.
    + apply blocksize_choice_iff in Hin as [Hrange Hmod].
      rewrite !(proj2 (Z.leb_le _ _)) by lia. rewrite (proj2 (Z.eqb_eq _ _) Hmod).
      reflexivity.
    + destruct ((50 <=? k) && (k <=? 1500) && (k mod 50 =? 0)) eqn:Hb; [|reflexivity].
      apply andb_true_iff in Hb as [Hb Hmod]. apply andb_true_iff in Hb as [Hlo Hhi].
      apply Z.leb_le in Hlo, Hhi. apply Z.eqb_eq in Hmod.
      rewrite (proj2 (blocksize_choice_iff k)) in Hin by auto. discriminate.
Qed.


(** ** Claims about the codec and the session *)

Section SessionClaims.
Import Codec Wire Session Layout Binding.

(** C1 (round trip): splitting a buffer with a valid chunk size,
    serializing every chunk, ingesting the records into a fresh session and
    assembling gives back the buffer, and [verify] accepts it. *)
Theorem round_trip (data : bytes) (ident : option string) (size : nat) :
  valid_chunk_size size = true ->
  exists m chunks,
    fromData data ident size = Ok m /\
    split data size = Ok chunks /\
    assemble (ingest_all (map (fun c => serialize c m) chunks) newSession) = Ok data /\
    verify (ingest_all (map (fun c => serialize c m) chunks) newSession) data = true.
Proof.
  intros Hvalid. unfold fromData, split. rewrite Hvalid.
  apply valid_chunk_size_bounds in Hvalid as [[Hlo _] _].
  eexists _, _. split; [reflexivity|]. split; [reflexivity|].
  set (m := {| key := _ |}).
  set (n := chunk_count (length data) size).
  set (body := fun i : nat => take size (drop (i * size) data)).
  rewrite map_map. cbn beta.
  change (map _ (seq 0 n))
    with (map (fun i => serialize {| index := i; payload := body i |} m) (seq 0 n)).
  assert (1 <= n)%nat as Hn by (unfold n, chunk_count; lia).
  destruct (ingest_all_chunks m body (seq 0 n) newSession) as (Hman & Hin & _).
  { apply Forall_forall. intros i Hi. apply elem_of_seq in Hi. cbn. lia. }
  { left. reflexivity. }
  specialize (Hman ltac:(destruct n; [lia | discriminate])).
  set (s := ingest_all _ newSession) in *.
  assert (isComplete s = true) as Hcomplete.
  { unfold isComplete. rewrite Hman. apply forallb_forall. intros i Hi.
    apply bool_decide_eq_true. rewrite Hin by (apply list_elem_of_In, Hi). eauto. }
  split.
  - unfold assemble. rewrite Hman, Hcomplete. f_equal.
    change (chunkCount (key m)) with n.
    rewrite <- (concat_pieces size ltac:(lia) n data)
      by (apply chunk_count_covers; lia).
    f_equal. apply map_ext_in. intros i Hi.
    rewrite Hin by (apply list_elem_of_In, Hi). reflexivity.
  - unfold verify. rewrite Hman. apply bool_decide_eq_true. reflexivity.
Qed.

(** The query of the session itself, [missingIndices], keeps the two
    states apart: it answers [Unknown] exactly when the manifest is unset
    and the empty list exactly when the session is complete. *)
Lemma missingIndices_states :
  (forall s, manifest s = None <-> missingIndices s = Unknown) /\
  (forall texts,
     Forall (fun text => deserialize text = Err BadRecord) texts <->
     missingIndices (ingest_all texts newSession) = Unknown) /\
  (forall s, isComplete s = true <-> missingIndices s = Missing []) /\
  Unknown <> Missing [].
Proof.
  assert (forall s, manifest s = None <-> missingIndices s = Unknown) as Hunset.
  { intros s. unfold missingIndices. destruct (manifest s); split; congruence. }
  split; [exact Hunset|]. split; [|split; [|discriminate]].
  - intros texts. rewrite <- Hunset. symmetry. apply manifest_unset_iff. reflexivity.
  - intros s. symmetry. apply missing_nil_iff_complete.
Qed.

Lemma unset_not_complete (s : ReconstructionSession) :
  manifest s = None -> isComplete s = false.
Proof. intros Hs. unfold isComplete. rewrite Hs. reflexivity. Qed.

Lemma collapsed_nil_iff (s : ReconstructionSession) :
  collapsedMissing s = [] <-> manifest s = None \/ isComplete s = true.
Proof.
  unfold collapsedMissing. rewrite <- missing_nil_iff_complete.
  unfold missingIndices. destruct (manifest s) as [k|].
  - destruct (filter _ _) as [|i l]; cbn [map].
    + split; [right; reflexivity | reflexivity].
    + split; [discriminate | intros [|]; discriminate].
  - split; [left; reflexivity | reflexivity].
Qed.

(** C2 (amended): [getMissingDataBlocks] has no state of its own for a
    session without manifest: it answers the empty list exactly when the
    manifest is unset or the session is complete.  The caller of lines
    49-51 tells the two apart by the order of its tests: with
    [isDataReady()] false, the empty list means that the manifest is
    unset, and the branch of line 51 (no valid code found) is taken
    exactly then, that is exactly when no structurally valid record has
    been ingested. *)
Theorem missing_blocks_empty_when_unset :
  (forall s : ReconstructionSession,
     getMissingDataBlocks s = [] <-> manifest s = None \/ isDataReady s = true) /\
  (forall s : ReconstructionSession,
     isDataReady s = false /\ getMissingDataBlocks s = [] <-> manifest s = None) /\
  (forall s : ReconstructionSession, rescan_head s = NoCodes <-> manifest s = None) /\
  (forall texts,
     rescan_head (ingest_all texts newSession) = NoCodes <->
     Forall (fun text => deserialize text = Err BadRecord) texts).
Proof.
  assert (forall s : ReconstructionSession,
            isDataReady s = false /\ getMissingDataBlocks s = [] <-> manifest s = None)
    as Hunset.
  { intros s. cbn [isDataReady getMissingDataBlocks Session_API].
    rewrite collapsed_nil_iff. split.
    - intros [Hc [Hs|Hr]]; [exact Hs | congruence].
    - intros Hs. split; [apply unset_not_complete, Hs | left; exact Hs]. }
  assert (forall s : ReconstructionSession, rescan_head s = NoCodes <-> manifest s = None)
    as Hhead.
  { intros s. rewrite <- Hunset. unfold rescan_head.
    destruct (isDataReady s).
    - split; [discriminate | intros [[=] _]].
    - destruct (decide (getMissingDataBlocks s = [])) as [Hnil|Hsome].
      + rewrite bool_decide_eq_true_2 by exact Hnil. tauto.
      + rewrite bool_decide_eq_false_2 by exact Hsome. split; [discriminate | tauto]. }
  split; [intros s; apply collapsed_nil_iff|]. split; [exact Hunset|].
  split; [exact Hhead|].
  intros texts. rewrite Hhead. apply manifest_unset_iff. reflexivity.
Qed.
(** C8: the session that the rescan loop hands on from round to round
    keeps what it has received: the session at the end of the loop is the
    initial one after further ingests, every index received before the
    loop is still received after it, and a fixed manifest stays fixed. *)
Theorem received_persists_across_rounds
    (folder : string) (s s' : ReconstructionSession) (w w' : world) :
  rescan_loop folder s w = (Ok s', w') ->
  (exists texts, s' = ingest_all texts s) /\
  (forall i, is_Some (received s !! i) -> is_Some (received s' !! i)) /\
  (forall k, manifest s = Some k -> manifest s' = Some k).
Proof.
  intros Hloop. apply rescan_loop_feeds in Hloop as [texts ->].
  change (feed texts s) with (ingest_all texts s).
  split; [eauto|]. split.
  - intros i. apply ingest_all_received_kept.
  - intros k. apply ingest_all_manifest_kept.
Qed.

(** The cover is page 1 and the chunk at index [n] is page [n + 2]. *)
Lemma plan_positions (m : BackupManifest) (chunks : list Chunk) (format : PageFormat) :
  page_at (plan m chunks format) 1 = Some (cover m) /\
  forall (n : nat) (c : Chunk),
    chunks !! n = Some c ->
    page_at (plan m chunks format) (Z.of_nat n + 2) = Some (chunk_page m c).
Proof.
  split; [reflexivity|]. intros n c Hc. unfold page_at, plan.
  rewrite (proj2 (Z.leb_le 1 (Z.of_nat n + 2))) by lia.
  replace (Z.to_nat (Z.of_nat n + 2 - 1)) with (S n) by lia.
  change ((cover m :: map (chunk_page m) chunks) !! S n)
    with ((chunk_page m <$> chunks) !! n).
  rewrite list_lookup_fmap, Hc. reflexivity.
Qed.

(** The chunks of [split] sit at their own index. *)
Lemma split_lookup (data : bytes) (size : nat) (chunks : list Chunk) (n : nat) (c : Chunk) :
  split data size = Ok chunks -> chunks !! n = Some c -> index c = n.
Proof.
  unfold split. destruct (valid_chunk_size size); [|discriminate].
  intros [= <-].
  match goal with |- map ?f ?l !! _ = _ -> _ => change (map f l) with (f <$> l) end.
  rewrite list_lookup_fmap.
  destruct (seq 0 _ !! n) as [i|] eqn:Hi; [|discriminate].
  apply lookup_seq in Hi as [-> _]. intros [= <-]. reflexivity.
Qed.

(** The order that the command-line flow depends on: with the collapsed
    list, "no valid code yet" is read off as "not ready and nothing
    missing", which holds exactly for an unset manifest. *)
Lemma no_codes_iff_unknown (s : ReconstructionSession) :
  rescan_head s = NoCodes <-> missingIndices s = Unknown.
Proof.
  unfold rescan_head. cbn [isDataReady getMissingDataBlocks Session_API].
  unfold collapsedMissing.
  destruct (isComplete s) eqn:Hc.
  - apply missing_nil_iff_complete in Hc. rewrite Hc. split; discriminate.
  - destruct (missingIndices s) as [|l] eqn:Hm.
    + rewrite bool_decide_eq_true_2 by reflexivity. tauto.
    + destruct l as [|i l].
      * apply missing_nil_iff_complete in Hm. congruence.
      * rewrite bool_decide_eq_false_2 by discriminate. split; discriminate.
Qed.

(** The check of line 56 on a session is [verify] on the assembled data. *)
Lemma hash_matches_verify (s : ReconstructionSession) :
  is_Some (manifest s) -> hash_matches s = verify s (assembled s).
Proof.
  intros [k Hk]. unfold hash_matches, verify.
  cbn [_sha256 getData Session_API]. rewrite Hk. cbn [from_option].
  destruct (String.eqb_spec (hexdigest (contentHash k)) (hexdigest (sha256 (assembled s))))
    as [Heq|Hne].
  - apply hexdigest_inj in Heq. symmetry. apply bool_decide_eq_true. congruence.
  - symmetry. apply bool_decide_eq_false. intros Heq. apply Hne. congruence.
Qed.

End SessionClaims.


(** ** The claims on a worked restore *)

Section Worked.
Import Codec Wire Session Binding Scenario.

Example scenario_first_round :
  __restoreFromFolder "scans" None (disk_with first_scan) = Ok after_first /\
  isDataReady after_first = false /\
  missingIndices after_first = Missing [0%nat] /\
  missingIndices newSession = Unknown.
Proof. vm_compute. auto. Qed.

Example scenario_any_order :
  assemble (ingest_all [record1; "scribble"; record0; record1] newSession)
    = Ok (bytes_of_string "hi!").
Proof. vm_compute. reflexivity. Qed.

Example scenario_other_backup_rejected :
  snd (ingest "PS1|eA==|00|2|0|aGk=" after_first) = Rejected MismatchedBackup /\
  snd (ingest record1 after_first) = Duplicate /\
  snd (ingest "PS1||00|2|2|aGk=" after_first) = Malformed.
Proof. vm_compute. auto. Qed.

Example split_120_bytes :
  let data := bytes_of_string
    "0123456789012345678901234567890123456789012345678901234567890123456789012345678901234567890123456789" in
  option_map (map (fun c => (index c, length (payload c))))
             (match split data 50 with Ok cs => Some cs | Err _ => None end)
    = Some [(0, 50); (1, 50)]%nat /\
  split data 5 = Err InvalidChunkSize.
Proof. vm_compute. auto. Qed.

Lemma round_trip_witness :
  valid_chunk_size 50 = true /\
  exists m chunks,
    fromData (bytes_of_string "hello world") None 50 = Ok m /\
    split (bytes_of_string "hello world") 50 = Ok chunks /\
    assemble (ingest_all (map (fun c => serialize c m) chunks) newSession)
      = Ok (bytes_of_string "hello world") /\
    verify (ingest_all (map (fun c => serialize c m) chunks) newSession)
      (bytes_of_string "hello world") = true.
Proof.
  split; [reflexivity|].
  apply (round_trip (bytes_of_string "hello world") None 50). reflexivity.
Defined.

Lemma received_persists_witness :
  exists s' w',
    rescan_loop "scans" after_first second_round = (Ok s', w') /\
    is_Some (received after_first !! 1%nat) /\
    is_Some (received s' !! 1%nat) /\
    isDataReady s' = true.
Proof.
  eexists _, _. split; [vm_compute; reflexivity|].
  split; [vm_compute; eauto|]. split; [|vm_compute; reflexivity].
  eapply (received_persists_across_rounds "scans" after_first _ second_round _).
  - vm_compute. reflexivity.
  - vm_compute. eauto.
Defined.

Lemma mismatch_is_not_fatal_witness :
  exists ps w2 final,
    restore_session None restore_run = (Ok ps, w2) /\
    hash_matches ps = false /\
    __interactiveFolder None restore_run = (Ok tt, final) /\
    files (w_disk final) !! "out.bin" = Some (bytes_of_string "hi!") /\
    In (Print (mismatch_message EmptyString)) (w_out final).
Proof.
  eexists _, _, _. split; [vm_compute; reflexivity|].
  split; [vm_compute; reflexivity|]. split.
  - eapply (mismatch_is_not_fatal None restore_run).
    + vm_compute. reflexivity.
    + vm_compute. reflexivity.
    + vm_compute. reflexivity.
    + reflexivity.
  - split; [vm_compute; reflexivity|]. vm_compute. tauto.
Defined.


Lemma webcam_witness :
  fst (interactive_restore (PS := ReconstructionSession)
         (World [Line "two"; Line "7"; Line " -2 "; Line "scans"] (disk_with first_scan) []))
    = Err (NotImplementedError "TODO") /\
  fst (interactive_restore (PS := ReconstructionSession)
         (World [Line "3"; Line "no"; Line "nope"; Line "yes"] (disk_with first_scan) []))
    = Err (NotImplementedError "TODO").
Proof.
  split.
  - apply (webcam_raises_not_implemented [Line "two"; Line "7"] " -2 " (-2));
      [reflexivity | reflexivity | left; reflexivity].
  - apply (webcam_raises_not_implemented [] "3" 3); [reflexivity | reflexivity |].
    right. split; [reflexivity|]. eexists _, _, _, _. repeat split; reflexivity.
Defined.

Example save_fails_unbound :
  let d := {| dirs := ∅; files := ∅; can_create := fun _ => false |} in
  save after_first (World [Line "/nowhere/out.bin"; Line "out.bin"] d [])
    = (Err (UnboundLocalError "_file"),
       World [Line "out.bin"] d [Prompt save_prompt; Print could_not_save]).
Proof. reflexivity. Qed.

Example blocksize_examples :
  parse_blocksize (Some "1500") = Ok 1500 /\
  parse_blocksize (Some "50") = Ok 50 /\
  parse_blocksize (Some "0") = Err (SystemExit 2) /\
  parse_blocksize (Some "75") = Err (SystemExit 2) /\
  parse_blocksize (Some "1550") = Err (SystemExit 2) /\
  parse_blocksize (Some "fifty") = Err (SystemExit 2).
Proof. vm_compute. repeat split. Qed.

End Worked.


(** * Further properties of the front end *)

Section RestoreMore.
Context {PS : Type} `{PaperStorageAPI PS}.

Lemma restore_entries_app (a b : list dirent) (ps : PS) :
  restore_entries (a ++ b) ps =
  match restore_entries a ps with
  | Ok ps' => restore_entries b ps'
  | Err ex => Err ex
  end.
Proof.
  revert ps. induction a as [|e a IH]; intros ps; [reflexivity|].
  cbn [app]. rewrite !restore_entries_cons.
  destruct (benign e); [apply IH | reflexivity].
Qed.

(** X1: [__restoreFromFolder] returns an object exactly when the folder
    can be listed, every entry of the listing is harmless (a non-file, a
    file that PIL does not identify, or an image whose symbols all hold
    ASCII data) and none of the [restoreFromQRString] calls for the
    decoded texts raises; the object returned is the one after these
    calls. *)
Theorem restore_returns_iff
    (raises : string -> PS -> option exn)
    (folder : string) (ps : option PS) (d : disk) (ps' : PS) :
  __restoreFromFolder_raising raises folder ps d = Ok ps' <->
  (exists entries,
     dirs d !! folder = Some entries /\
     forallb benign entries = true /\
     feed_raising raises (folder_texts entries) (default PaperStorage_new ps) = Ok ps').
Proof.
  unfold __restoreFromFolder_raising. cbn zeta. split.
  - destruct (dirs d !! folder) as [entries|]; [|discriminate].
    intros Hrun. exists entries. split; [reflexivity|].
    pose proof (restore_entries_raising_ok raises _ _ _ Hrun) as Hall.
    split; [exact Hall|]. rewrite <- Hrun. symmetry.
    apply restore_entries_raising_benign, Hall.
  - intros (entries & -> & Hall & Hfeed).
    rewrite restore_entries_raising_benign by exact Hall. exact Hfeed.
Qed.


(** X3: restoring from a folder whose listing is [a ++ b] gives what
    restoring from a folder listing [a] and then, with the object returned,
    from a folder listing [b] gives; a failure in the first part is the
    failure of the whole. *)
Theorem restore_split_folders
    (whole first second : string) (ps : option PS) (d : disk) (a b : list dirent) :
  dirs d !! whole = Some (a ++ b) ->
  dirs d !! first = Some a ->
  dirs d !! second = Some b ->
  __restoreFromFolder whole ps d =
  match __restoreFromFolder first ps d with
  | Ok ps' => __restoreFromFolder second (Some ps') d
  | Err ex => Err ex
  end.
Proof.
  intros Hwhole Hfirst Hsecond. unfold __restoreFromFolder.
  rewrite Hwhole, Hfirst, Hsecond. apply restore_entries_app.
Qed.

End RestoreMore.


Section FolderRestoreMore.
Context {PS : Type} `{PaperStorageAPI PS}.


(** X5: every answer that is not a directory costs one message and one new
    prompt; the first answer that is a directory is returned, and when the
    input ends before one is given the loop ends with [EOFError]. *)
Theorem ask_folder_retries
    (names : list string) (folder : string) (rest : list event) (d : disk)
    (out : list output) :
  forallb (fun name => negb (isdir d name)) names = true ->
  isdir d folder = true ->
  let asked := concat (map (fun _ => [Print not_a_folder; Prompt folder_prompt]) names) in
  ask_folder (map Line names ++ Line folder :: rest) d out
    = (Ok folder, World rest d (out ++ asked)) /\
  ask_folder (map Line names) d out = (Err EOFError, World [] d (out ++ asked)).
Proof.
  intros Hnames Hfolder. revert out.
  induction names as [|name names IH]; intros out.
  - cbn [map concat app ask_folder]. rewrite Hfolder, app_nil_r. split; reflexivity.
  - cbn [forallb] in Hnames. apply andb_true_iff in Hnames as [Hname Hnames].
    apply negb_true_iff in Hname.
    cbn [map concat app ask_folder]. rewrite Hname.
    destruct (IH Hnames (out ++ [Print not_a_folder; Prompt folder_prompt])) as [IH1 IH2].
    cbn zeta in IH1, IH2. rewrite IH1, IH2, <- !app_assoc. split; reflexivity.
Qed.

Lemma rescan_wait_ready (folder : string) (inp : list event) :
  forall (ps : PS) (d : disk) (out : list output) (ps' : PS) (w' : world),
    rescan_wait folder ps inp d out = (Ok ps', w') -> isDataReady ps' = true.
Proof.
  induction inp as [|ev inp IH]; intros ps d out ps' w' Hrun; [discriminate|].
  destruct ev as [line| | |d']; cbn [rescan_wait] in Hrun; try discriminate.
  - destruct (__restoreFromFolder folder (Some ps) d) as [ps1|ex]; [|discriminate].
    unfold rescan_head in Hrun. destruct (isDataReady ps1) eqn:Hready.
    + injection Hrun as <- _. exact Hready.
    + destruct (bool_decide _); [discriminate|]. eapply IH, Hrun.
  - eapply IH, Hrun.
Qed.

(** X6: the rescan loop of lines 49-55 hands on a session only when
    [isDataReady] holds of it. *)
Theorem rescan_loop_ready (folder : string) (ps ps' : PS) (w w' : world) :
  rescan_loop folder ps w = (Ok ps', w') -> isDataReady ps' = true.
Proof.
  unfold rescan_loop, rescan_head. destruct (isDataReady ps) eqn:Hready.
  - intros [= <- _]. exact Hready.
  - destruct (bool_decide _); [discriminate|]. apply rescan_wait_ready.
Qed.

Lemma restore_session_ready (ps0 : option PS) (w w2 : world) (ps : PS) :
  restore_session ps0 w = (Ok ps, w2) -> isDataReady ps = true.
Proof.
  unfold restore_session, io_bind.
  destruct (ask_folder _ _ _) as [[folder|ex] w1]; [|discriminate].
  destruct (__restoreFromFolder folder ps0 (w_disk w1)) as [ps1|ex]; [|discriminate].
  apply rescan_loop_ready.
Qed.

(** X7: when [__interactiveFolder] returns normally, the session was ready,
    exactly one file name was read after the restore, that file could be
    opened, and it now holds the data of the session, whether or not the
    hash matched. *)
Theorem interactive_folder_saves_ready_data (ps0 : option PS) (w w' : world) :
  __interactiveFolder ps0 w = (Ok tt, w') ->
  exists (ps : PS) (w2 : world) (filename : string) (rest : list event) (d : disk),
    restore_session ps0 w = (Ok ps, w2) /\
    isDataReady ps = true /\
    read_input (w_in w2) (w_disk w2) = (Ok filename, (rest, d)) /\
    can_create d filename = true /\
    w_in w' = rest /\
    files (w_disk w') !! filename = Some (getData ps).
Proof.
  unfold __interactiveFolder. unfold io_bind at 1.
  destruct (restore_session ps0 w) as [[ps|ex] w2] eqn:Hsession; [|discriminate].
  unfold io_bind at 1. rewrite save_run.
  assert (w_in (report ps w2) = w_in w2 /\ w_disk (report ps w2) = w_disk w2) as [-> ->]
    by (unfold report; destruct (hash_matches ps); split; reflexivity).
  destruct (read_input (w_in w2) (w_disk w2)) as [[filename|ex] [rest d]] eqn:Hread;
    [|discriminate].
  destruct (can_create d filename) eqn:Hopen; [|discriminate].
  intros [= <-]. exists ps, w2, filename, rest, d.
  split; [reflexivity|]. split; [eapply restore_session_ready, Hsession|].
  split; [exact Hread|]. split; [exact Hopen|]. split; [reflexivity|].
  cbn [w_disk files]. apply lookup_insert_eq.
Qed.

(** X8: a folder in which no code is found ends the restore at once: for a
    [PaperStorage] that is not ready and reports nothing missing when new,
    [__interactiveFolder] prints the "No valid QR-Codes found" message and
    raises [SystemExit] without asking for a rescan or a file name. *)
Theorem folder_without_codes_exits
    (folder : string) (entries : list dirent) (rest : list event) (d : disk)
    (out : list output) :
  isDataReady (PaperStorage_new : PS) = false ->
  getMissingDataBlocks (PaperStorage_new : PS) = [] ->
  dirs d !! folder = Some entries ->
  forallb benign entries = true ->
  folder_texts entries = [] ->
  __interactiveFolder (None : option PS) (World (Line folder :: rest) d out)
    = (Err (SystemExit 0),
       World rest d (out ++ [Prompt folder_prompt; Print (no_codes_message folder)])).
Proof.
  intros Hready Hmissing Hdir Hall Hnone.
  unfold __interactiveFolder, restore_session, io_bind.
  cbn [w_in w_disk w_out ask_folder].
  assert (isdir d folder = true) as ->
    by (apply bool_decide_eq_true; rewrite Hdir; eauto).
  cbn [w_disk]. unfold __restoreFromFolder. rewrite Hdir.
  rewrite restore_entries_ok by exact Hall. rewrite Hnone. cbn [feed fold_left from_option id].
  unfold rescan_loop, rescan_head. rewrite Hready, Hmissing.
  rewrite bool_decide_eq_true_2 by reflexivity.
  unfold print. cbn [w_in w_disk w_out]. rewrite <- app_assoc. reflexivity.
Qed.

End FolderRestoreMore.


Section MenuMore.
Context {PS : Type} `{PaperStorageAPI PS}.

Lemma dispatch_out_of_range (k : Z) : 3 < k -> dispatch (PS := PS) (Some k) = io_ret tt.
Proof.
  intros Hk. destruct k as [|[[p|p|]|[p|p|]|]|p]; try reflexivity; lia.
Qed.

Lemma ask_choice_left (pre tail : list event) :
  forallb asks_again pre = true ->
  quits tail = true ->
  forall (choice : option Z) (d : disk) (out : list output),
    choice = None \/ (exists k, choice = Some k /\ 3 < k) ->
    exists choice' d' out',
      ask_choice choice (pre ++ tail) d out = (Ok choice', World (tl tail) d' out') /\
      (choice' = None \/ choice' = Some 0 \/ exists k, choice' = Some k /\ 3 < k).
Proof.
  intros Hpre Htail. induction pre as [|ev pre IH]; intros choice d out Hchoice.
  - cbn [app]. destruct tail as [|[text| | |d1] tail]; cbn [ask_choice tl];
      try discriminate; try (exists choice, d, out; split; [reflexivity | tauto]).
    cbn [quits] in Htail. apply bool_decide_eq_true in Htail. rewrite Htail.
    cbn. exists (Some 0), d, out. split; [reflexivity | tauto].
  - cbn [forallb] in Hpre. apply andb_true_iff in Hpre as [Hev Hpre].
    destruct ev as [s| | |d1]; cbn [asks_again] in Hev; try discriminate;
      cbn [app ask_choice]; [|apply IH; assumption].
    destruct (py_int s) as [n|]; [|apply IH; assumption].
    apply negb_true_iff in Hev. rewrite Hev. apply IH; [exact Hpre|].
    right. exists (Z.abs n). split; [reflexivity|]. apply Z.leb_gt in Hev. exact Hev.
Qed.

(** X9: the menu is left without any restore when, after entries that make
    it ask again, the input ends, the user interrupts, or 0 is entered:
    [EOFError] and [KeyboardInterrupt] are caught, also after a number
    above 3 has been stored in [_choice], and the interactive restore
    returns normally having read nothing further. *)
Theorem menu_left_without_restore
    (pre tail : list event) (d : disk) (out : list output) :
  forallb asks_again pre = true ->
  quits tail = true ->
  fst (interactive_restore (PS := PS) (World (pre ++ tail) d out)) = Ok tt /\
  w_in (snd (interactive_restore (PS := PS) (World (pre ++ tail) d out))) = tl tail.
Proof.
  intros Hpre Htail.
  unfold interactive_restore, io_bind, io_print, print. cbn [w_in w_disk w_out].
  destruct (ask_choice_left pre tail Hpre Htail None d
              ((out ++ [Print menu]) ++ [Prompt choice_prompt]) (or_introl eq_refl))
    as (choice & d' & out' & -> & Hchoice).
  destruct Hchoice as [-> | [-> | (k & -> & Hk)]]; try (split; reflexivity).
  rewrite dispatch_out_of_range by exact Hk. split; reflexivity.
Qed.

Lemma ask_choice_sign (pre : list event) (t1 t2 : string) (n : Z) (rest : list event) :
  forallb asks_again pre = true ->
  py_int t1 = Some n ->
  py_int t2 = Some (- n) ->
  forall (choice : option Z) (d : disk) (out : list output),
    ask_choice choice (pre ++ Line t1 :: rest) d out
      = ask_choice choice (pre ++ Line t2 :: rest) d out.
Proof.
  intros Hpre H1 H2. induction pre as [|ev pre IH]; intros choice d out.
  - cbn [app ask_choice]. rewrite H1, H2, Z.abs_opp. reflexivity.
  - cbn [forallb] in Hpre. apply andb_true_iff in Hpre as [Hev Hpre].
    cbn [app]. destruct ev as [s| | |d1]; cbn [asks_again] in Hev; try discriminate;
      cbn [ask_choice]; [|apply IH, Hpre].
    destruct (py_int s) as [k|]; [|apply IH, Hpre].
    apply negb_true_iff in Hev. rewrite Hev. apply IH, Hpre.
Qed.

(** X10: the menu takes the absolute value of the number entered (line
    101): after entries that make it ask again, an entry and its negation
    lead to the same run, so that [-1] starts the folder restore like
    [1]. *)
Theorem menu_ignores_sign
    (pre : list event) (t1 t2 : string) (n : Z) (rest : list event)
    (d : disk) (out : list output) :
  forallb asks_again pre = true ->
  py_int t1 = Some n ->
  py_int t2 = Some (- n) ->
  interactive_restore (PS := PS) (World (pre ++ Line t1 :: rest) d out)
    = interactive_restore (World (pre ++ Line t2 :: rest) d out).
Proof.
  intros Hpre H1 H2. unfold interactive_restore, io_bind, io_print, print.
  cbn [w_in w_disk w_out]. rewrite (ask_choice_sign pre t1 t2 n rest Hpre H1 H2).
  reflexivity.
Qed.

(** X11: in the guided dialogue of lines 116-131 every route but the webcam
    asks its questions, prints the instructions of that route, waits for
    one line, and then runs [__interactiveFolder] with no prior session,
    exactly as entry 1 of the menu does. *)
Theorem guided_runs_folder_restore
    (a1 a2 a3 enter : string) (rest : list event) (d : disk) (out : list output) :
  startswith_y a1 || startswith_y a2 || negb (startswith_y a3) = true ->
  let answers :=
    if startswith_y a1 then [a1]
    else if startswith_y a2 then [a1; a2] else [a1; a2; a3] in
  let printed :=
    if startswith_y a1 then
      [Prompt scanner_question; Print scanner_instructions; Prompt press_enter]
    else if startswith_y a2 then
      [Prompt scanner_question; Prompt smartphone_question;
       Print smartphone_instructions; Prompt press_enter]
    else
      [Prompt scanner_question; Prompt smartphone_question; Prompt webcam_question;
       Print other_instructions; Prompt press_enter] in
  guided (PS := PS) (World (map Line answers ++ Line enter :: rest) d out)
    = __interactiveFolder None (World rest d (out ++ printed)).
Proof.
  intros Hroute. unfold guided, io_bind, input, io_print, print.
  destruct (startswith_y a1) eqn:H1.
  - cbn [map app w_in w_disk w_out read_input]. rewrite H1.
    cbn [w_in w_disk w_out read_input].
    rewrite <- !app_assoc. reflexivity.
  - destruct (startswith_y a2) eqn:H2.
    + cbn [map app w_in w_disk w_out read_input]. rewrite H1.
      cbn [w_in w_disk w_out read_input]. rewrite H2.
      cbn [w_in w_disk w_out read_input].
      rewrite <- !app_assoc. reflexivity.
    + cbn [orb] in Hroute. apply negb_true_iff in Hroute.
      cbn [map app w_in w_disk w_out read_input]. rewrite H1.
      cbn [w_in w_disk w_out read_input]. rewrite H2.
      cbn [w_in w_disk w_out read_input]. rewrite Hroute.
      cbn [w_in w_disk w_out read_input].
      rewrite <- !app_assoc. reflexivity.
Qed.
End MenuMore.


(** ** The options and the encoding branch *)

Lemma list_ascii_of_string_app (a b : string) :
  list_ascii_of_string (a +:+ b) = list_ascii_of_string a ++ list_ascii_of_string b.
Proof.
  induction a as [|c a IH]; [reflexivity|].
  change (String c a +:+ b) with (String c (a +:+ b)).
  cbn [list_ascii_of_string app]. rewrite IH. reflexivity.
Qed.

Lemma string_of_list_ascii_app (a b : list ascii) :
  string_of_list_ascii (a ++ b) = string_of_list_ascii a +:+ string_of_list_ascii b.
Proof.
  induction a as [|c a IH]; [reflexivity|].
  cbn [string_of_list_ascii app]. rewrite IH. reflexivity.
Qed.

Lemma last_chars_suffix (stem : string) : last_chars 4 (stem +:+ ".pdf") = ".pdf"%string.
Proof.
  unfold last_chars. rewrite list_ascii_of_string_app, length_app.
  cbn [list_ascii_of_string length].
  replace (length (list_ascii_of_string stem) + 4 - 4)%nat
    with (length (list_ascii_of_string stem)) by lia.
  rewrite drop_app_length. reflexivity.
Qed.

Lemma has_suffix_iff (name : string) :
  last_chars 4 name = ".pdf"%string <-> exists stem, name = stem +:+ ".pdf".
Proof.
  split.
  - intros Hlast. unfold last_chars in Hlast.
    exists (string_of_list_ascii
              (take (length (list_ascii_of_string name) - 4) (list_ascii_of_string name))).
    rewrite <- Hlast, <- string_of_list_ascii_app, take_drop.
    symmetry. apply string_of_list_ascii_of_string.
  - intros [stem ->]. apply last_chars_suffix.
Qed.

(** X12: the name under which the backup is saved always ends in [.pdf]:
    a name that already ends in [.pdf] is kept, every other name (also a
    shorter one, or one ending in [.PDF]) gets [.pdf] appended, and doing
    this twice changes nothing more. *)
Theorem pdf_name_ends_in_pdf (name : string) :
  last_chars 4 (pdf_name name) = ".pdf"%string /\
  pdf_name (pdf_name name) = pdf_name name /\
  (pdf_name name = name <-> exists stem, name = stem +:+ ".pdf") /\
  (pdf_name name <> name -> pdf_name name = name +:+ ".pdf").
Proof.
  assert (last_chars 4 (pdf_name name) = ".pdf"%string) as Hends.
  { unfold pdf_name. destruct (String.eqb_spec (last_chars 4 name) ".pdf") as [Heq|Hne].
    - exact Heq.
    - apply last_chars_suffix. }
  split; [exact Hends|]. split; [|split].
  - unfold pdf_name at 1. rewrite Hends, String.eqb_refl. reflexivity.
  - rewrite <- has_suffix_iff. unfold pdf_name.
    destruct (String.eqb_spec (last_chars 4 name) ".pdf") as [Heq|Hne]; [tauto|].
    split; [|contradiction]. intros Hsame.
    apply (f_equal (fun s => length (list_ascii_of_string s))) in Hsame.
    rewrite list_ascii_of_string_app, length_app in Hsame. cbn in Hsame. lia.
  - unfold pdf_name. destruct (String.eqb (last_chars 4 name) ".pdf"); [contradiction|].
    reflexivity.
Qed.

(** X13: the page format is Letter only for the argument [Letter] and A4
    for the argument [A4] or no argument; argparse refuses every other
    value, so that the fallback to A4 of lines 137-138 is never taken for
    an unknown format. *)
Theorem format_selection (arg : option string) :
  match parse_format arg with
  | Ok text => Some (select_format text)
  | Err _ => None
  end =
  match arg with
  | None => Some Layout.A4
  | Some text =>
      if String.eqb text "A4" then Some Layout.A4
      else if String.eqb text "Letter" then Some Layout.Letter
      else None
  end /\
  (forall ex, parse_format arg = Err ex -> ex = SystemExit 2).
Proof.
  destruct arg as [text|]; [|split; [reflexivity | discriminate]].
  unfold parse_format, format_choices. cbn [existsb].
  destruct (String.eqb_spec text "A4") as [->|HA4]; [split; [reflexivity | discriminate]|].
  destruct (String.eqb_spec text "Letter") as [->|HLetter];
    [split; [reflexivity | discriminate]|].
  cbn [orb]. split; [reflexivity|]. intros ex [= <-]. reflexivity.
Qed.

Section EncodeMore.
Context {PS : Type} `{PaperStorageWriterAPI PS}.


End EncodeMore.


(** ** The further properties on worked runs *)

Section WorkedMore.
Import Codec Wire Session Binding Scenario Scenario2.


Lemma restore_split_witness :
  __restoreFromFolder "ab" (None : option ReconstructionSession) two_folders =
  match __restoreFromFolder "a" None two_folders with
  | Ok ps' => __restoreFromFolder "b" (Some ps') two_folders
  | Err ex => Err ex
  end.
Proof.
  apply (restore_split_folders "ab" "a" "b" None two_folders
           first_scan [page "page2.png" record0]); vm_compute; reflexivity.
Defined.


Lemma ask_folder_retries_witness :
  ask_folder [Line "nowhere"; Line "else"; Line "scans"; Line "later"]
             (disk_with first_scan) []
    = (Ok "scans"%string,
       World [Line "later"] (disk_with first_scan)
         [Print not_a_folder; Prompt folder_prompt; Print not_a_folder; Prompt folder_prompt]).
Proof.
  apply (ask_folder_retries ["nowhere"; "else"]%string "scans" [Line "later"]
           (disk_with first_scan) []); vm_compute; reflexivity.
Defined.

Lemma rescan_loop_ready_witness :
  exists s' w',
    rescan_loop "scans" after_first second_round = (Ok s', w') /\ isDataReady s' = true.
Proof.
  eexists _, _. split; [vm_compute; reflexivity|].
  eapply (rescan_loop_ready "scans" after_first _ second_round _).
  vm_compute. reflexivity.
Defined.

Lemma interactive_folder_witness :
  exists final,
    __interactiveFolder (None : option ReconstructionSession) restore_run = (Ok tt, final) /\
    exists ps w2 filename rest d,
      restore_session None restore_run = (Ok ps, w2) /\
      isDataReady ps = true /\
      read_input (w_in w2) (w_disk w2) = (Ok filename, (rest, d)) /\
      can_create d filename = true /\
      w_in final = rest /\
      files (w_disk final) !! filename = Some (getData ps).
Proof.
  eexists. split; [vm_compute; reflexivity|].
  eapply (interactive_folder_saves_ready_data None restore_run).
  vm_compute. reflexivity.
Defined.

Lemma folder_without_codes_witness :
  __interactiveFolder (None : option ReconstructionSession)
    (World [Line "scans"; Line "out.bin"] (disk_with empty_scan) [])
    = (Err (SystemExit 0),
       World [Line "out.bin"] (disk_with empty_scan)
         [Prompt folder_prompt; Print (no_codes_message "scans")]).
Proof.
  apply (folder_without_codes_exits (PS := ReconstructionSession)
           "scans" empty_scan [Line "out.bin"] (disk_with empty_scan) []);
    vm_compute; reflexivity.
Defined.

Lemma menu_left_witness :
  fst (interactive_restore (PS := ReconstructionSession)
         (World [Line "9"; Line "x"; Eof; Line "1"] (disk_with first_scan) [])) = Ok tt /\
  w_in (snd (interactive_restore (PS := ReconstructionSession)
         (World [Line "9"; Line "x"; Eof; Line "1"] (disk_with first_scan) [])))
    = [Line "1"].
Proof.
  apply (menu_left_without_restore (PS := ReconstructionSession)
           [Line "9"; Line "x"] [Eof; Line "1"] (disk_with first_scan) []);
    reflexivity.
Defined.

Lemma menu_sign_witness :
  interactive_restore (PS := ReconstructionSession)
    (World [Line "1"; Line "scans"] (disk_with empty_scan) [])
  = interactive_restore
    (World [Line "-1"; Line "scans"] (disk_with empty_scan) []).
Proof.
  apply (menu_ignores_sign (PS := ReconstructionSession) [] "1" "-1" 1
           [Line "scans"] (disk_with empty_scan) []); reflexivity.
Defined.

Lemma guided_witness :
  guided (PS := ReconstructionSession)
      (World [Line "no"; Line "yes"; Line ""; Line "scans"] (disk_with empty_scan) [])
    = __interactiveFolder None
        (World [Line "scans"] (disk_with empty_scan)
           [Prompt scanner_question; Prompt smartphone_question;
            Print smartphone_instructions; Prompt press_enter]).
Proof.
  apply (guided_runs_folder_restore (PS := ReconstructionSession) "no" "yes" "" ""
           [Line "scans"] (disk_with empty_scan) []).
  reflexivity.
Defined.

Example pdf_name_examples :
  pdf_name "backup.pdf" = "backup.pdf"%string /\
  pdf_name "backup" = "backup.pdf"%string /\
  pdf_name "pdf" = "pdf.pdf"%string /\
  pdf_name "scan.PDF" = "scan.PDF.pdf"%string /\
  pdf_name ".pdf" = ".pdf"%string /\
  pdf_name "" = ".pdf"%string.
Proof. vm_compute. repeat split. Qed.

Example encode_examples :
  let args := {| Args.outputFilename := "backup"; Args.inputFilename := None;
                 Args.identifier := None; Args.format := "A4"; Args.forceStdin := false;
                 Args.interactiveRestore := false; Args.blocksize := 1500 |} in
  let d := disk_with empty_scan in
  (* a terminal and no input file: the help text, nothing saved *)
  encode_run args {| isatty := true; piped := [] |} (World [] d [])
    = (Ok tt, World [] d [Print "usage"]) /\
  (* piped data: saved as backup.pdf *)
  fst (encode_run args {| isatty := false; piped := [x68; x69] |} (World [] d [])) = Ok tt /\
  files (w_disk (snd (encode_run args {| isatty := false; piped := [x68; x69] |}
                        (World [] d []))))
    !! "backup.pdf"%string = Some [x68; x69].
Proof. vm_compute. repeat split. Qed.

End WorkedMore.


Section LoopMore.
Context {PS : Type} `{PaperStorageAPI PS}.

(** X15: when the user answers the rescan prompt without the folder
    yielding anything new to the session (feeding its texts again leaves
    the session as it is, and blocks are still missing), every answer
    prints the same rescan message again, and the loop ends with
    [EOFError] when the input ends. *)
Theorem rescan_without_new_scans
    (folder : string) (entries : list dirent) (ps : PS) (missing : list Z)
    (lines : list string) (d : disk) (out : list output) :
  dirs d !! folder = Some entries ->
  forallb benign entries = true ->
  feed (folder_texts entries) ps = ps ->
  rescan_head ps = Rescan missing ->
  rescan_wait folder ps (map Line lines) d out
    = (Err EOFError,
       World [] d
         (out ++ concat (map (fun _ => [Print (rescan_message missing); Prompt rescan_prompt])
                             lines))).
Proof.
  intros Hdir Hall Hsame Hhead. revert out.
  induction lines as [|line lines IH]; intros out.
  - cbn. rewrite app_nil_r. reflexivity.
  - cbn [map rescan_wait concat]. unfold __restoreFromFolder. rewrite Hdir.
    rewrite restore_entries_ok by exact Hall. cbn [from_option id].
    rewrite Hsame, Hhead, IH, <- app_assoc. reflexivity.
Qed.






End LoopMore.

Section WorkedLoop.
Import Codec Wire Session Binding Scenario Scenario2.

Lemma rescan_without_new_scans_witness :
  rescan_wait "scans" after_first [Line ""; Line ""] (disk_with first_scan) []
    = (Err EOFError,
       World [] (disk_with first_scan)
         [Print (rescan_message [0]); Prompt rescan_prompt;
          Print (rescan_message [0]); Prompt rescan_prompt]).
Proof.
  apply (rescan_without_new_scans "scans" first_scan after_first [0]
           [""; ""]%string (disk_with first_scan) []); vm_compute; reflexivity.
Defined.


End WorkedLoop.


(** ** The integrity check, the missing blocks and the failing entries on
    worked sessions *)

Section WorkedSessions.
Import Codec Wire Session Binding Scenario Scenario2 Scenario3.

Lemma hash_check_witness :
  (hash_matches hello_session = true /\
   report hello_session (World [] (disk_with []) [])
     = World [] (disk_with []) [Print (success_message "")]) /\
  (hash_matches both_blocks = false /\
   report both_blocks (World [] (disk_with []) [])
     = World [] (disk_with []) [Print (mismatch_message "")]).
Proof.
  split.
  - destruct (hash_check_compares_digests hello_session (sha256 hello)
                (World [] (disk_with []) [])) as (_ & Hiff & Hsame & _).
    + vm_compute. reflexivity.
    + split; [apply Hiff; vm_compute; reflexivity|].
      rewrite Hsame by (vm_compute; reflexivity). reflexivity.
  - destruct (hash_check_compares_digests both_blocks [x00]
                (World [] (disk_with []) [])) as (_ & _ & _ & Hdiff & _).
    + vm_compute. reflexivity.
    + split; [vm_compute; reflexivity|].
      rewrite Hdiff; [reflexivity|]. vm_compute. discriminate.
Defined.

(** Against C2 as stated: for a new session, whose manifest is unset,
    [getMissingDataBlocks] answers the empty list, which is also its
    answer for a complete session; and on that answer the front end
    reports that no valid code was found (lines 50-52). *)
Lemma missing_blocks_collapse :
  manifest newSession = None /\
  isDataReady newSession = false /\
  getMissingDataBlocks newSession = [] /\
  isDataReady both_blocks = true /\
  getMissingDataBlocks both_blocks = getMissingDataBlocks newSession /\
  restore_session (PS := ReconstructionSession) None
      (World [Line "scans"] (disk_with empty_scan) [])
    = (Err (SystemExit 0),
       World [] (disk_with empty_scan)
         [Prompt folder_prompt; Print (no_codes_message "scans")]).
Proof. vm_compute. repeat split. Qed.

(** Against C7 as stated: a file that cannot be read is not skipped.  The
    exception of [PIL.Image.open] ends the restore, with
    [restoreFromQRString] raising or not, although the listing without
    that file restores the whole backup. *)
Lemma unreadable_file_aborts_restore :
  __restoreFromFolder (PS := ReconstructionSession) "scans" None (disk_with unreadable_scan)
    = Err (OtherError "PermissionError") /\
  __restoreFromFolder_raising raises_on_malformed "scans" None (disk_with unreadable_scan)
    = Err (OtherError "PermissionError") /\
  __restoreFromFolder (PS := ReconstructionSession) "scans" None
      (disk_with (List.filter benign unreadable_scan))
    = Ok both_blocks.
Proof. vm_compute. repeat split. Qed.

Lemma restore_folder_calls_witness :
  __restoreFromFolder_raising (H := Recorder.Recorder_API) (fun _ _ => None)
      "scans" None (disk_with second_scan)
    = Ok [record1; record0] /\
  __restoreFromFolder_raising raises_on_malformed "scans" None (disk_with unreadable_scan)
    = Err (OtherError "PermissionError") /\
  __restoreFromFolder_raising raises_on_malformed "scans" None (disk_with damaged_scan)
    = Err UnicodeDecodeError /\
  __restoreFromFolder_raising raises_on_malformed "scans" None (disk_with scribbled_scan)
    = Err (OtherError "ValueError").
Proof.
  split; [|split; [|split]].
  - destruct (restore_folder_calls_or_aborts (H := Recorder.Recorder_API) (fun _ _ => None)
                "scans" None (disk_with second_scan) second_scan eq_refl) as (Hrun & _).
    rewrite Hrun by reflexivity. reflexivity.
  - destruct (restore_folder_calls_or_aborts raises_on_malformed
                "scans" None (disk_with unreadable_scan) unreadable_scan eq_refl)
      as (_ & _ & Hopen & _).
    rewrite (Hopen [page "page3.png" record1] _ [page "page2.png" record0]
               (OtherError "PermissionError") eq_refl eq_refl eq_refl).
    reflexivity.
  - destruct (restore_folder_calls_or_aborts raises_on_malformed
                "scans" None (disk_with damaged_scan) damaged_scan eq_refl)
      as (_ & _ & _ & Hbad).
    rewrite (Hbad [page "page3.png" record1] _ [page "page2.png" record0]
               [] [x50; xff] [] eq_refl eq_refl eq_refl eq_refl eq_refl).
    reflexivity.
  - destruct (restore_folder_calls_or_aborts raises_on_malformed
                "scans" None (disk_with scribbled_scan) scribbled_scan eq_refl) as (Hrun & _).
    rewrite Hrun by reflexivity. reflexivity.
Defined.

(** [int] on the entries of the menu and of [-b]: the white space it
    strips, the separators 28-31 it refuses, and the limit of 4300
    digits. *)
Example py_int_examples :
  py_int "2" = Some 2 /\
  py_int " -2 " = Some (-2) /\
  py_int "+1_500" = Some 1500 /\
  py_int (String (ascii_of_nat 9) "3" +:+ String (ascii_of_nat 12) "") = Some 3 /\
  py_int (String (ascii_of_nat 160) "3") = Some 3 /\
  py_int (String (ascii_of_nat 28) "2") = None /\
  py_int (String (ascii_of_nat 31) "50") = None /\
  py_int "- 2" = None /\
  py_int "1__0" = None /\
  py_int "_1" = None /\
  py_int "2.0" = None /\
  py_int "" = None.
Proof. vm_compute. repeat split. Qed.

Example py_int_digit_limit :
  py_int (string_of_list_ascii (repeat "0"%char 4299) +:+ "5") = Some 5 /\
  py_int (string_of_list_ascii (repeat "0"%char 4300) +:+ "5") = None /\
  py_int (string_of_list_ascii (repeat "1"%char 4301)) = None /\
  parse_blocksize (Some (String (ascii_of_nat 28) "50")) = Err (SystemExit 2) /\
  asks_again (Line (String (ascii_of_nat 28) "2")) = true /\
  quits [Line (String (ascii_of_nat 28) "0")] = false.
Proof. vm_compute. repeat split. Qed.

End WorkedSessions.
